(** * osFs: the local operating-system driver of the ezFs abstraction

    A shallow embedding of [_osFs.py] (classes [OsItem], [OsFile],
    [OsDirectory], [OsFs]) and the properties its specification states.

    Python objects live on a heap and are addressed by reference; methods
    take the reference [self].  Every method is a computation in a state
    and exception monad: a raised exception keeps the mutations made
    before it, as in Python. *)

From Stdlib Require Import ZArith Ascii String List Bool Lia.
From stdpp Require Import gmap strings list fin_maps.
Import ListNotations.
Local Open Scope string_scope.
Local Open Scope Z_scope.

(** ** Exceptions *)

(** The exceptions that the source raises itself or receives from the
    Python runtime and library functions it calls. *)
Inductive exn : Type :=
  | ValueError (msg : string)
  | TypeError (msg : string)
  | AttributeError (msg : string)
  | LookupError (msg : string)
  | OverflowError (msg : string)
  | KeyError (key : Z)
  | OSError (msg : string)
  | UnboundLocalError (name : string)
  | RecursionError
  | ImportError (name : string)
  | NotImplementedError
  | PlainException (msg : string)      (* [raise Exception(msg)] *)
  | NoFileException (path : string)    (* [ezFs.NoFileException] *)
  | UserException (msg : string)       (* raised by user code, an [Exception] *)
  | KeyboardInterrupt.                 (* a [BaseException] outside [Exception] *)

(** [except Exception] catches every class above but [KeyboardInterrupt]. *)
Definition is_Exception (e : exn) : bool :=
  match e with
  | KeyboardInterrupt => false
  | _ => true
  end.

(** [str(e)], as [print(e)] shows it. *)
Definition exn_str (e : exn) : string :=
  match e with
  | ValueError m | TypeError m | AttributeError m | LookupError m
  | OverflowError m | OSError m | PlainException m | UserException m => m
  | KeyError k => "KeyError"
  | UnboundLocalError n => "local variable '" ++ n ++ "' referenced before assignment"
  | RecursionError => "maximum recursion depth exceeded"
  | ImportError n => "No module named '" ++ n ++ "'"
  | NotImplementedError => ""
  | NoFileException p => p
  | KeyboardInterrupt => ""
  end.

Inductive result (A : Type) : Type :=
  | Ok (a : A)
  | Raise (e : exn).
Arguments Ok {A} a.
Arguments Raise {A} e.

(** ** The backing store *)

(** What the operating system holds at a path.  [NOther] stands for what
    exists and is neither a directory nor a regular file (a device, a
    socket).  [mtime] is [st_mtime]. *)
Inductive node : Type :=
  | NDir (mtime : Z)
  | NFile (content : list Byte.byte) (mtime : Z)
  | NOther (mtime : Z).

Abbreviation store := (gmap string node).

(** [os.path.isdir], [os.path.exists], [os.path.isfile]. *)
Definition os_path_isdir (st : store) (p : string) : bool :=
  match st !! p with Some (NDir _) => true | _ => false end.

Definition os_path_exists (st : store) (p : string) : bool :=
  match st !! p with Some _ => true | None => false end.

Definition os_path_isfile (st : store) (p : string) : bool :=
  match st !! p with Some (NFile _ _) => true | _ => false end.

(** [os.stat(p).st_mtime]. *)
Definition os_stat_mtime (st : store) (p : string) : result Z :=
  match st !! p with
  | Some (NDir t) | Some (NFile _ t) | Some (NOther t) => Ok t
  | None => Raise (OSError "No such file or directory")
  end.

(** The name [n] when [k] is [dir/n] with no further separator. *)
Fixpoint strip_prefix (p k : string) : option string :=
  match p, k with
  | EmptyString, _ => Some k
  | String a p', String b k' => if Ascii.eqb a b then strip_prefix p' k' else None
  | String _ _, EmptyString => None
  end.

Fixpoint has_char (c : ascii) (s : string) : bool :=
  match s with
  | EmptyString => false
  | String a s' => Ascii.eqb a c || has_char c s'
  end.

Definition child_name (dir k : string) : option string :=
  match strip_prefix (dir ++ "/") k with
  | Some n => if has_char "/" n || String.eqb n "" then None else Some n
  | None => None
  end.

(** [os.listdir]: the names directly under a directory, in the order the
    store enumerates them. *)
Definition os_listdir (st : store) (p : string) : result (list string) :=
  match st !! p with
  | Some (NDir _) => Ok (omap (fun kv => child_name p (fst kv)) (map_to_list st))
  | Some _ => Raise (OSError "Not a directory")
  | None => Raise (OSError "No such file or directory")
  end.

(** [os.remove]: removes one entry that is not a directory, unless the
    system refuses ([faults]: permission denied, in use). *)
Definition os_remove (st : store) (faults : gmap string exn) (p : string)
    : result unit * store :=
  match st !! p with
  | Some (NDir _) => (Raise (OSError "Is a directory"), st)
  | Some _ =>
      match faults !! p with
      | Some e => (Raise e, st)
      | None => (Ok tt, delete p st)
      end
  | None => (Raise (OSError "No such file or directory"), st)
  end.

Definition under (dir k : string) : bool :=
  String.eqb dir k ||
  match strip_prefix (dir ++ "/") k with Some _ => true | None => false end.

(** Removal entry by entry, stopping at the first refusal. *)
Fixpoint remove_all (st : store) (faults : gmap string exn) (keys : list string)
    : result unit * store :=
  match keys with
  | [] => (Ok tt, st)
  | k :: rest =>
      match faults !! k with
      | Some e => (Raise e, st)
      | None => remove_all (delete k st) faults rest
      end
  end.

(** [shutil.rmtree]: removes a directory and everything under it; the
    first refusal ends it, with what was removed before staying removed. *)
Definition shutil_rmtree (st : store) (faults : gmap string exn) (p : string)
    : result unit * store :=
  match st !! p with
  | Some (NDir _) =>
      remove_all st faults (filter (fun k => under p k = true) (fst <$> map_to_list st))
  | Some _ => (Raise (OSError "Not a directory"), st)
  | None => (Raise (OSError "No such file or directory"), st)
  end.

(** ** Collaborators outside the repository *)

(** A normalized location of the [paths] package: its text and the
    operating-system path it names, if any. *)
Record URL : Type := mkURL {
  url_text : string;
  filePath : option string;
}.

#[global] Instance URL_eq_dec : EqDecision URL.
Proof. solve_decision. Defined.

(** What the source consumes from [paths], [ezFs] and the codecs, without
    reimplementing it. *)
Class Collaborators : Type := {
  asUrl : string -> URL;                      (* [paths.asUrl] on a string *)
  url_child : URL -> string -> URL;           (* [URL.child] *)
  fsId : URL -> string;                       (* [EzFsItem.fsId] *)
  str_encode : string -> string -> result (list Byte.byte);   (* [str.encode(encoding)] *)
  bytes_decode : string -> list Byte.byte -> result string;   (* [bytes.decode(encoding)] *)
  os_path_join : string -> string -> string;  (* [os.path.join] *)
  default_mode : string;                      (* [_fileAccessMode] after [EzFsFile.__init__] *)
}.

(** ** Python file objects *)

(** The object [open(...)] returns.  The model is unbuffered: a write
    reaches the store at once, and a text stream counts one character per
    byte. *)
Record pyfile : Type := mkPyfile {
  pf_path : string;
  pf_binary : bool;
  pf_readable : bool;
  pf_writable : bool;
  pf_append : bool;
  pf_pos : Z;
  pf_closed : bool;
}.

Definition set_pos (f : pyfile) (p : Z) : pyfile :=
  mkPyfile (pf_path f) (pf_binary f) (pf_readable f) (pf_writable f) (pf_append f) p (pf_closed f).

Definition set_closed (f : pyfile) : pyfile :=
  mkPyfile (pf_path f) (pf_binary f) (pf_readable f) (pf_writable f) (pf_append f) (pf_pos f) true.

(** References to heap objects and to file objects. *)
Definition ref : Type := nat.

(** What the attribute [_f] of a file entity can hold: a Python file
    object, or an entity ([read] stores the value [open] returns, which is
    the entity itself). *)
Inductive fref : Type :=
  | FStream (h : nat)
  | FEntity (r : ref).

Record OsFile : Type := mkOsFile {
  url : option URL;
  filesystem : ref;
  isOpen : bool;
  _fileAccessMode : string;
  fileAccessMode : string;
  _f : option fref;
}.

Record OsDirectory : Type := mkOsDirectory {
  d_url : option URL;
  d_filesystem : ref;
  _children : option ref;
}.

(** The state of the generator [OsFs._dir] returns: not started (its
    argument still unevaluated), suspended at [yield] with the names left,
    or finished. *)
Inductive generator : Type :=
  | GenCreated (fs : ref) (arg : ref)
  | GenSuspended (fs : ref) (u : URL) (names : list string)
  | GenFinished.

Inductive obj : Type :=
  | OFile (f : OsFile)
  | ODir (d : OsDirectory)
  | OFs (d : OsDirectory) (caseSensitive : bool)   (* an [OsFs] is an [OsDirectory] *)
  | OGen (g : generator).

(** ** Program state *)

Record State : Type := mkState {
  heap : gmap nat obj;
  next_ref : nat;
  files : gmap nat pyfile;
  next_file : nat;
  close_fault : gmap nat exn;   (* file objects whose close reports a pending I/O error *)
  remove_fault : gmap string exn;   (* paths the system refuses to remove, and why *)
  disk : store;
  now : Z;
  stdout : list string;
  stderr : list string;
}.

Definition with_heap (s : State) (h : gmap nat obj) : State :=
  mkState h (next_ref s) (files s) (next_file s) (close_fault s) (remove_fault s) (disk s) (now s) (stdout s) (stderr s).

Definition with_files (s : State) (fs : gmap nat pyfile) : State :=
  mkState (heap s) (next_ref s) fs (next_file s) (close_fault s) (remove_fault s) (disk s) (now s) (stdout s) (stderr s).

Definition with_disk (s : State) (d : store) : State :=
  mkState (heap s) (next_ref s) (files s) (next_file s) (close_fault s) (remove_fault s) d (now s) (stdout s) (stderr s).

(** The state and exception monad, over any state. *)
Definition ST (S A : Type) : Type := S -> result A * S.

#[global] Instance ST_ret {S} : MRet (ST S) := fun A a s => (Ok a, s).

#[global] Instance ST_bind {S} : MBind (ST S) := fun A B k c s =>
  match c s with
  | (Ok a, s') => k a s'
  | (Raise e, s') => (Raise e, s')
  end.

Definition raise {S A} (e : exn) : ST S A := fun s => (Raise e, s).
Definition get_state {S} : ST S S := fun s => (Ok s, s).
Definition put_state {S} (s : S) : ST S unit := fun _ => (Ok tt, s).
Definition lift_result {S A} (r : result A) : ST S A := fun s => (r, s).

(** [try: c  except <class> as e: h e], the class given by the exceptions
    it covers. *)
Definition try_catch {S A} (covers : exn -> bool) (c : ST S A) (h : exn -> ST S A)
    : ST S A := fun s =>
  match c s with
  | (Ok a, s') => (Ok a, s')
  | (Raise e, s') => if covers e then h e s' else (Raise e, s')
  end.

(** [try: c  except Exception as e: h e]. *)
Definition try_except {S A} : ST S A -> (exn -> ST S A) -> ST S A :=
  try_catch is_Exception.

Definition is_ImportError (e : exn) : bool :=
  match e with ImportError _ => true | _ => false end.

(** Computations over the program state. *)
Abbreviation M := (ST State).

(** Allocation of a new object. *)
Definition alloc (o : obj) : M ref := fun s =>
  (Ok (next_ref s),
   mkState (<[next_ref s := o]> (heap s)) (S (next_ref s)) (files s) (next_file s)
     (close_fault s) (remove_fault s) (disk s) (now s) (stdout s) (stderr s)).

Definition get_file (self : ref) : M OsFile := fun s =>
  match heap s !! self with
  | Some (OFile f) => (Ok f, s)
  | _ => (Raise (AttributeError "not a file entity"), s)
  end.

Definition put_file (self : ref) (f : OsFile) : M unit := fun s =>
  (Ok tt, with_heap s (<[self := OFile f]> (heap s))).

(** ** The built-in [open] and the methods of file objects *)

Fixpoint all_in (allowed s : string) : bool :=
  match s with
  | EmptyString => true
  | String a s' => has_char a allowed && all_in allowed s'
  end.

Fixpoint nodup_chars (s : string) : bool :=
  match s with
  | EmptyString => true
  | String a s' => negb (has_char a s') && nodup_chars s'
  end.

Definition b2n (b : bool) : nat := if b then 1%nat else 0%nat.

(** The argument checks of [io.open], in its order. *)
Definition check_open_args (mode : string) (encoding : option string) : result unit :=
  if negb (all_in "axrwb+t" mode && nodup_chars mode) then
    Raise (ValueError "invalid mode")
  else if has_char "t" mode && has_char "b" mode then
    Raise (ValueError "can't have text and binary mode at once")
  else if (1 <? b2n (has_char "x" mode) + b2n (has_char "r" mode)
                + b2n (has_char "w" mode) + b2n (has_char "a" mode))%nat then
    Raise (ValueError "can't have read/write/append mode at once")
  else if negb (has_char "x" mode || has_char "r" mode
                || has_char "w" mode || has_char "a" mode) then
    Raise (ValueError "must have exactly one of read/write/append mode")
  else if has_char "b" mode && bool_decide (encoding <> None) then
    Raise (ValueError "binary mode doesn't take an encoding argument")
  else Ok tt.

(** What opening does to the store, and the position it starts at. *)
Definition os_open (st : store) (t : Z) (path mode : string) : result (store * Z) :=
  match st !! path with
  | Some (NDir _) => Raise (OSError "Is a directory")
  | Some (NFile c _) =>
      if has_char "x" mode then Raise (OSError "File exists")
      else if has_char "w" mode then Ok (<[path := NFile [] t]> st, 0)
      else if has_char "a" mode then Ok (st, Z.of_nat (length c))
      else Ok (st, 0)
  | Some (NOther _) =>
      if has_char "x" mode then Raise (OSError "File exists") else Ok (st, 0)
  | None =>
      if has_char "r" mode then Raise (OSError "No such file or directory")
      else Ok (<[path := NFile [] t]> st, 0)
  end.

(** [open(path, mode, encoding=encoding)]. *)
Definition builtin_open (path mode : string) (encoding : option string) : M nat := fun s =>
  match check_open_args mode encoding with
  | Raise e => (Raise e, s)
  | Ok _ =>
      match os_open (disk s) (now s) path mode with
      | Raise e => (Raise e, s)
      | Ok (st, pos) =>
          let upd := has_char "+" mode in
          let pf := mkPyfile path (has_char "b" mode)
                      (has_char "r" mode || upd)
                      (has_char "w" mode || has_char "a" mode || has_char "x" mode || upd)
                      (has_char "a" mode) pos false in
          (Ok (next_file s),
           mkState (heap s) (next_ref s) (<[next_file s := pf]> (files s)) (S (next_file s))
             (close_fault s) (remove_fault s) st (now s) (stdout s) (stderr s))
      end
  end.

(** Python values that file I/O carries: [bytes], [str], and any other
    object, known by its [str()]. *)
Inductive pydata : Type :=
  | PyBytes (b : list Byte.byte)
  | PyStr (t : string)
  | PyObject (repr : string).

Definition get_pyfile (h : nat) : M pyfile := fun s =>
  match files s !! h with
  | Some pf =>
      if pf_closed pf then (Raise (ValueError "I/O operation on closed file."), s)
      else (Ok pf, s)
  | None => (Raise (ValueError "I/O operation on closed file."), s)
  end.

Definition put_pyfile (h : nat) (pf : pyfile) : M unit := fun s =>
  (Ok tt, with_files s (<[h := pf]> (files s))).

Definition file_content (st : store) (p : string) : list Byte.byte :=
  match st !! p with Some (NFile c _) => c | _ => [] end.

(** Whether a stream on the path can be positioned: what is neither a
    regular file nor a directory (a pipe, a terminal) cannot. *)
Definition seekable (st : store) (p : string) : bool :=
  match st !! p with Some (NOther _) => false | _ => true end.

(** [f.seek(offset, whence)]: a stream that is not seekable refuses
    (with [io.UnsupportedOperation], an [OSError]), and a text stream
    refuses relative seeks other than by zero. *)
Definition pf_seek (h : nat) (offset whence : Z) : M unit :=
  pf ← get_pyfile h;
  s ← get_state;
  let size := Z.of_nat (length (file_content (disk s) (pf_path pf))) in
  if negb (seekable (disk s) (pf_path pf)) then
    if pf_binary pf && negb ((0 <=? whence) && (whence <=? 2)) then
      raise (ValueError "invalid whence")
    else raise (OSError "underlying stream is not seekable")
  else if whence =? 0 then
    if offset <? 0 then raise (ValueError "negative seek position")
    else put_pyfile h (set_pos pf offset)
  else if whence =? 1 then
    if pf_binary pf then
      if pf_pos pf + offset <? 0 then raise (OSError "Invalid argument")
      else put_pyfile h (set_pos pf (pf_pos pf + offset))
    else if offset =? 0 then mret tt
    else raise (OSError "can't do nonzero cur-relative seeks")
  else if whence =? 2 then
    if pf_binary pf then
      if size + offset <? 0 then raise (OSError "Invalid argument")
      else put_pyfile h (set_pos pf (size + offset))
    else if offset =? 0 then put_pyfile h (set_pos pf size)
    else raise (OSError "can't do nonzero end-relative seeks")
  else raise (ValueError "invalid whence").


(** [f.read(n)]: [bytes] from a binary stream, [str] from a text one. *)
Definition pf_read (h : nat) (n : option Z) : M pydata :=
  pf ← get_pyfile h;
  s ← get_state;
  if negb (pf_readable pf) then raise (OSError "not readable")
  else
    let rest := skipn (Z.to_nat (pf_pos pf)) (file_content (disk s) (pf_path pf)) in
    let got := match n with
               | Some k => if k <? 0 then rest else firstn (Z.to_nat k) rest
               | None => rest
               end in
    put_pyfile h (set_pos pf (pf_pos pf + Z.of_nat (length got)));;
    mret (if pf_binary pf then PyBytes got else PyStr (string_of_list_byte got)).

Definition splice (c : list Byte.byte) (at_ : nat) (d : list Byte.byte) : list Byte.byte :=
  firstn at_ c ++ repeat Byte.x00 (at_ - length c) ++ d ++ skipn (at_ + length d) c.

(** The argument check of [f.write(data)]: a binary stream takes [bytes]
    only, a text stream [str] only. *)
Definition write_bytes (data : pydata) (binary : bool) : result (list Byte.byte) :=
  match data, binary with
  | PyBytes d, true => Ok d
  | PyStr t, false => Ok (list_byte_of_string t)
  | PyBytes _, false => Raise (TypeError "write() argument must be str, not bytes")
  | PyStr _, true => Raise (TypeError "a bytes-like object is required, not 'str'")
  | PyObject _, _ => Raise (TypeError "write() argument must be str or bytes")
  end.

(** [f.write(data)]. *)
Definition pf_write (h : nat) (data : pydata) : M Z :=
  pf ← get_pyfile h;
  s ← get_state;
  if negb (pf_writable pf) then raise (OSError "not writable")
  else
    match write_bytes data (pf_binary pf) with
    | Raise e => raise e
    | Ok d =>
        let c := file_content (disk s) (pf_path pf) in
        let at_ := if pf_append pf then length c else Z.to_nat (pf_pos pf) in
        put_state (with_disk s (<[pf_path pf := NFile (splice c at_ d) (now s)]> (disk s)));;
        put_pyfile h (set_pos pf (Z.of_nat (at_ + length d)));;
        mret (Z.of_nat (length d))
    end.

(** [f.flush()]. *)
Definition pf_flush (h : nat) : M unit :=
  _ ← get_pyfile h; mret tt.

(** [f.close()]: closing again does nothing; a pending I/O error is
    reported once the object is closed. *)
Definition pf_close (h : nat) : M unit := fun s =>
  match files s !! h with
  | Some pf =>
      if pf_closed pf then (Ok tt, s)
      else
        let s' := with_files s (<[h := set_closed pf]> (files s)) in
        match close_fault s !! h with
        | Some e => (Raise e, s')
        | None => (Ok tt, s')
        end
  | None => (Ok tt, s)
  end.

(** ** [OsFile]: a file of the operating system, opened on demand *)

Definition set_isOpen (f : OsFile) (b : bool) : OsFile :=
  mkOsFile (url f) (filesystem f) b (_fileAccessMode f) (fileAccessMode f) (_f f).

Definition set__fileAccessMode (f : OsFile) (m : string) : OsFile :=
  mkOsFile (url f) (filesystem f) (isOpen f) m (fileAccessMode f) (_f f).

Definition set_fileAccessMode (f : OsFile) (m : string) : OsFile :=
  mkOsFile (url f) (filesystem f) (isOpen f) (_fileAccessMode f) m (_f f).

Definition set__f (f : OsFile) (x : option fref) : OsFile :=
  mkOsFile (url f) (filesystem f) (isOpen f) (_fileAccessMode f) (fileAccessMode f) x.

(** [self.attr = v]: the object is read again, since the callee in between
    may have changed it. *)
Definition assign (self : ref) (upd : OsFile -> OsFile) : M unit :=
  f ← get_file self; put_file self (upd f).

(** [OsFile.__init__]: no stream yet.  [mode] is what [EzFsFile.__init__]
    leaves in [_fileAccessMode]. *)
Definition OsFile_init (u : option URL) (fs : ref) (mode : string) : OsFile :=
  mkOsFile u fs false mode "" None.

(** A method call through [self._f].  When [_f] holds the entity itself,
    the call re-enters the same method with [_f] still set and never
    reaches a stream: Python ends it with [RecursionError]. *)
Definition via_f {A} (x : option fref) (attr : string) (call : nat -> M A) : M A :=
  match x with
  | Some (FStream h) => call h
  | Some (FEntity _) => raise RecursionError
  | None => raise (AttributeError ("'NoneType' object has no attribute '" ++ attr ++ "'"))
  end.

(** The body of [seek], over the [open] method it calls. *)
Definition seek_body (open_ : ref -> option string -> M ref)
    (self : ref) (offset whence : Z) : M unit :=
  f ← get_file self;
  match _f f with
  | None =>
      if (offset =? 0) && (whence =? 0) then
        (* whenever we do open we'll be at the beginning *)
        mret tt
      else
        open_ self None;;
        f' ← get_file self;
        via_f (_f f') "seek" (fun h => pf_seek h offset whence)
  | Some _ => via_f (_f f) "seek" (fun h => pf_seek h offset whence)
  end.

(** The body of [open], over the [seek] method it calls. *)
Definition open_body (seek_ : ref -> Z -> Z -> M unit)
    (self : ref) (mode : option string) : M ref :=
  f ← get_file self;
  match _f f with
  | None =>
      match url f with
      | Some (mkURL _ (Some path)) =>
          assign self (fun f => set_isOpen f true);;
          f1 ← get_file self;
          let m := match mode with
                   | None => _fileAccessMode f1
                   | Some m => m
                   end in
          match mode with
          | None => mret tt
          | Some m => assign self (fun f => set__fileAccessMode f m)
          end;;
          h ← builtin_open path m (Some "utf-8");
          assign self (fun f => set__f f (Some (FStream h)));;
          mret self
      | _ => raise (PlainException "Null file location")
      end
  | Some _ => seek_ self 0 0;; mret self
  end.

(** [open] reaches [seek] only with a stream set, where [seek] does not
    call [open] back: the recursion between the two has depth one. *)
Definition OsFile_open : ref -> option string -> M ref :=
  open_body (seek_body (fun _ _ => raise RecursionError)).

Definition OsFile_seek : ref -> Z -> Z -> M unit :=
  seek_body OsFile_open.


Section OsFileIO.
Context `{Collaborators}.

(** [data.decode(encoding)]: [str] has no such method. *)
Definition decode (data : pydata) (encoding : string) : M pydata :=
  match data with
  | PyBytes b => t ← lift_result (bytes_decode encoding b); mret (PyStr t)
  | _ => raise (AttributeError "'str' object has no attribute 'decode'")
  end.

Definition OsFile_read (self : ref) (numBytes : option Z) (encoding : option string)
    : M pydata :=
  f ← get_file self;
  match _f f with
  | None =>
      r ← OsFile_open self (Some "rb");
      assign self (fun f => set__f f (Some (FEntity r)))
  | Some _ => mret tt
  end;;
  f' ← get_file self;
  data ← via_f (_f f') "read" (fun h => pf_read h numBytes);
  match encoding with
  | Some enc => decode data enc
  | None => mret data
  end.

Definition OsFile_write (self : ref) (data : pydata) (encoding : string) : M Z :=
  f ← get_file self;
  match _f f with
  | None => OsFile_open self (Some "wb");; mret tt
  | Some _ => mret tt
  end;;
  data' ← match data with
          | PyBytes b => mret b
          | PyStr t => lift_result (str_encode encoding t)
          | PyObject repr => lift_result (str_encode encoding repr)
          end;
  f' ← get_file self;
  via_f (_f f') "write" (fun h => pf_write h (PyBytes data')).

End OsFileIO.

Definition OsFile_close (self : ref) : M unit :=
  f ← get_file self;
  match _f f with
  | Some _ =>
      assign self (fun f => set_isOpen f false);;
      assign self (fun f => set_fileAccessMode f "");;
      f' ← get_file self;
      via_f (_f f') "close" pf_close;;
      assign self (fun f => set__f f None)
  | None => mret tt
  end.

Definition OsFile_flush (self : ref) : M unit :=
  f ← get_file self;
  match _f f with
  | None => raise (PlainException "File not open")
  | Some _ => via_f (_f f) "flush" pf_flush
  end.

(** The error a close of file object [h] would report now. *)
Definition pending_error (s : State) (h : nat) : option exn :=
  match files s !! h with
  | Some pf => if pf_closed pf then None else close_fault s !! h
  | None => None
  end.

(** [OsFile.__del__]. *)
Definition OsFile_del (self : ref) : M unit :=
  OsFile_close self.

(** How the interpreter destroys an object: it runs [__del__], and an
    exception raised there is not propagated; it is reported on standard
    error ("Exception ignored in ...") and execution goes on.  The
    object then leaves the heap. *)
Definition destroy (self : ref) : M unit := fun s =>
  let '(r, s1) := OsFile_del self s in
  let err := match r with
             | Ok _ => stderr s1
             | Raise e =>
                 (stderr s1 ++ [("Exception ignored in: OsFile.__del__: " ++ exn_str e)%string])%list
             end in
  (Ok tt,
   mkState (delete self (heap s1)) (next_ref s1) (files s1) (next_file s1) (close_fault s1) (remove_fault s1)
     (disk s1) (now s1) (stdout s1) err).

(** ** [OsDirectory] and the driver [OsFs] *)

(** The host: [os.name], [os.sep], [os.getcwd()]. *)
Record Platform : Type := mkPlatform {
  os_name : string;
  os_sep : string;
  os_getcwd : string;
}.

(** What the source passes where a location is expected: a string, a
    [URL], or an entity. *)
Inductive UrlCompatible : Type :=
  | UStr (t : string)
  | UUrl (u : URL)
  | UItem (r : ref).

Definition get_dir (self : ref) : M OsDirectory := fun s =>
  match heap s !! self with
  | Some (ODir d) | Some (OFs d _) => (Ok d, s)
  | _ => (Raise (AttributeError "not a directory entity"), s)
  end.

Definition put_dir (self : ref) (d : OsDirectory) : M unit := fun s =>
  match heap s !! self with
  | Some (OFs _ c) => (Ok tt, with_heap s (<[self := OFs d c]> (heap s)))
  | _ => (Ok tt, with_heap s (<[self := ODir d]> (heap s)))
  end.

Definition get_gen (g : ref) : M generator := fun s =>
  match heap s !! g with
  | Some (OGen x) => (Ok x, s)
  | _ => (Raise (TypeError "object is not an iterator"), s)
  end.

Definition put_gen (g : ref) (x : generator) : M unit := fun s =>
  (Ok tt, with_heap s (<[g := OGen x]> (heap s))).

(** [isinstance(item, OsDirectory)]. *)
Definition is_OsDirectory (s : State) (item : ref) : bool :=
  match heap s !! item with
  | Some (ODir _) | Some (OFs _ _) => true
  | _ => false
  end.

Definition item_url (item : ref) : M URL := fun s =>
  match heap s !! item with
  | Some (OFile f) =>
      match url f with
      | Some u => (Ok u, s)
      | None => (Raise (AttributeError "entity without location"), s)
      end
  | Some (ODir d) | Some (OFs d _) =>
      match d_url d with
      | Some u => (Ok u, s)
      | None => (Raise (AttributeError "entity without location"), s)
      end
  | _ => (Raise (AttributeError "not an entity"), s)
  end.

(** [OsItem.removeWatch] and [OsDirectory.mount] are not implemented. *)
Definition removeWatch (self : ref) (watchFn : nat) : M unit :=
  raise NotImplementedError.

Definition mount (self : ref) (location : string) (otherFs : option ref) : M URL :=
  raise NotImplementedError.

(** [OsDirectory.markDirty]. *)
Definition markDirty (self : ref) : M unit :=
  d ← get_dir self;
  put_dir self (mkOsDirectory (d_url d) (d_filesystem d) None).

(** [not path]: [None] and the empty string are both false values. *)
Definition path_or (p : option string) (default : string) : string :=
  match p with
  | Some q => if String.eqb q "" then default else q
  | None => default
  end.

Section Driver.
Context `{Collaborators}.

(** [asUrl] on whatever the caller hands over. *)
Definition asUrl_any (x : UrlCompatible) : M URL :=
  match x with
  | UStr t => mret (asUrl t)
  | UUrl u => mret u
  | UItem r => item_url r
  end.

(** [OsDirectory(url, filesystem)]. *)
Definition OsDirectory_new (x : UrlCompatible) (fs : ref) : M ref :=
  u ← asUrl_any x;
  alloc (ODir (mkOsDirectory (Some u) fs None)).

(** [OsFile(url, filesystem)]. *)
Definition OsFile_new (x : UrlCompatible) (fs : ref) : M ref :=
  u ← asUrl_any x;
  alloc (OFile (OsFile_init (Some u) fs default_mode)).

(** [OsFs.__init__]. *)
Definition OsFs_init (pf : Platform) (x : option UrlCompatible) (defaultLocationCwd : bool)
    : M ref :=
  let caseSensitive := negb (String.eqb (os_sep pf) "\") in
  let empty := match x with
               | None => true
               | Some (UStr t) => String.eqb t ""
               | Some _ => false
               end in
  u ← (if empty then
         if defaultLocationCwd then mret (asUrl (os_getcwd pf))
         else if String.eqb (os_name pf) "nt" then mret (asUrl "c:\")
         else mret (asUrl "/")
       else
         match x with
         | Some y => asUrl_any y
         | None => mret (asUrl "")
         end);
  s ← get_state;
  alloc (OFs (mkOsDirectory (Some u) (next_ref s) None) caseSensitive).

(** [OsFs.root]. *)
Definition root (self : ref) : M ref :=
  d ← OsDirectory_new (UStr "file://") self;
  mret d.

(** [OsFs._getFsItem]. *)
Definition _getFsItem (self : ref) (x : UrlCompatible) : M ref :=
  u ← asUrl_any x;
  let path := path_or (filePath u) "." in
  s ← get_state;
  if os_path_isdir (disk s) path then OsDirectory_new (UUrl u) self
  else if os_path_exists (disk s) path then OsFile_new (UUrl u) self
  else raise (NoFileException path).

(** [OsFs._dir]: the call only creates the generator; nothing of the body
    runs before the first [next]. *)
Definition _dir (self : ref) (arg : ref) : M ref :=
  alloc (OGen (GenCreated self arg)).

(** One round of the loop of [_dir]: up to the next [yield], or its end. *)
Definition gen_round (g fs : ref) (u : URL) (names : list string) : M (option ref) :=
  match names with
  | [] => put_gen g GenFinished;; mret None
  | c :: rest =>
      put_gen g GenFinished;;
      item ← _getFsItem fs (UUrl (url_child u c));
      put_gen g (GenSuspended fs u rest);;
      mret (Some item)
  end.

(** [next(g)] on a generator of [_dir]; [None] is [StopIteration].  A
    generator that raises is finished. *)
Definition gen_next (g : ref) : M (option ref) :=
  x ← get_gen g;
  match x with
  | GenCreated fs arg =>
      put_gen g GenFinished;;
      u ← asUrl_any (UItem arg);
      let path := path_or (filePath u) "." in
      s ← get_state;
      names ← lift_result (os_listdir (disk s) path);
      gen_round g fs u names
  | GenSuspended fs u names => gen_round g fs u names
  | GenFinished => mret None
  end.

(** Iterating to the end, as [for item in g] or [list(g)] does. *)
Fixpoint iterate (fuel : nat) (g : ref) : M (list ref) :=
  match fuel with
  | O => mret []
  | S n =>
      x ← gen_next g;
      match x with
      | None => mret []
      | Some item => items ← iterate n g; mret (item :: items)
      end
  end.

(** The rounds a generator still has, counting the one that ends it. *)
Definition rounds_left (s : State) (g : ref) : nat :=
  match heap s !! g with
  | Some (OGen (GenSuspended _ _ names)) => S (length names)
  | Some (OGen (GenCreated _ arg)) =>
      match item_url arg s with
      | (Ok u, _) =>
          match os_listdir (disk s) (path_or (filePath u) ".") with
          | Ok names => S (length names)
          | Raise _ => 1%nat
          end
      | _ => 1%nat
      end
  | _ => 1%nat
  end.

Definition py_list (g : ref) : M (list ref) :=
  s ← get_state; iterate (rounds_left s g) g.

(** The property [OsDirectory.children]. *)
Definition children (self : ref) : M ref :=
  d ← get_dir self;
  match _children d with
  | None =>
      g ← _dir (d_filesystem d) self;
      d' ← get_dir self;
      put_dir self (mkOsDirectory (d_url d') (d_filesystem d') (Some g))
  | Some _ => mret tt
  end;;
  d'' ← get_dir self;
  match _children d'' with
  | Some g => mret g
  | None => raise (AttributeError "children")   (* not reached: just set *)
  end.

End Driver.

Section Delete.
Context `{Collaborators}.

(** The property [EzFsItem.parent], of the [ezFs] package. *)
Variable item_parent : ref -> M ref.

Definition on_disk (op : store -> gmap string exn -> string -> result unit * store)
    (p : string) : M unit := fun s =>
  let '(r, st) := op (disk s) (remove_fault s) p in (r, with_disk s st).

(** [OsFs._delete]. *)
Definition _delete (self fsItem : ref) : M unit :=
  s ← get_state;
  (if is_OsDirectory s fsItem then
     u ← item_url fsItem; on_disk shutil_rmtree (fsId u)
   else
     u ← item_url fsItem; on_disk os_remove (fsId u));;
  p ← item_parent fsItem;
  markDirty p.

End Delete.

(** ** [OsItem.addWatch]: the change notifier *)

(** A user callback: given how many calls were made before, the path and
    the operation, it returns ([None]) or raises. *)
Definition WatcherFn : Type := nat -> string -> string -> option exn.

(** What the host offers to [addWatch]. *)
Record WatchHost : Type := mkWatchHost {
  host_name : string;      (* [os.name] *)
  host_win32 : bool;       (* [win32con] and [win32file] can be imported *)
  host_SIGIO : bool;       (* [signal] has [SIGIO] *)
  host_fcntl : bool;       (* [fcntl] can be imported *)
  host_dnotify : bool;     (* [fcntl] has [F_SETSIG], [F_NOTIFY] and the [DN_] flags *)
}.

(** What happens while the watcher is blocked once, in
    [ReadDirectoryChangesW] or in [time.sleep]: the change records handed
    back, the [SIGIO] deliveries, and the store as it is afterwards. *)
Record tick : Type := mkTick {
  t_events : result (list (Z * string));
  t_signals : nat;
  t_disk : store;
}.

(** The frame of a running [addWatch]: its local variables [time] (bound
    or not), [lastchange] and [before], with the store, the time slept,
    the calls made to the callback and what was printed. *)
Record WState : Type := mkWState {
  w_disk : store;
  w_slept : Z;
  w_calls : list (string * string);
  w_out : list string;
  lv_time : bool;
  lv_lastchange : Z;
  lv_before : list string;
}.

Definition start (st : store) : WState := mkWState st 0 [] [] false 0 [].

Abbreviation W := (ST WState).

Inductive outcome : Type :=
  | Returned
  | Raised (e : exn)
  | Blocked.     (* still in its loop, waiting *)

(** [watchFn(path, op)]. *)
Definition call (watchFn : WatcherFn) (path op : string) : W unit := fun s =>
  let s' := mkWState (w_disk s) (w_slept s) (w_calls s ++ [(path, op)]) (w_out s)
              (lv_time s) (lv_lastchange s) (lv_before s) in
  match watchFn (length (w_calls s)) path op with
  | None => (Ok tt, s')
  | Some e => (Raise e, s')
  end.

Definition wprint (line : string) : W unit := fun s =>
  (Ok tt, mkWState (w_disk s) (w_slept s) (w_calls s) (w_out s ++ [line])
            (lv_time s) (lv_lastchange s) (lv_before s)).

(** [import time]: binds the local name [time]. *)
Definition import_time : W unit := fun s =>
  (Ok tt, mkWState (w_disk s) (w_slept s) (w_calls s) (w_out s) true
            (lv_lastchange s) (lv_before s)).

Definition set_lastchange (v : Z) : W unit := fun s =>
  (Ok tt, mkWState (w_disk s) (w_slept s) (w_calls s) (w_out s) (lv_time s) v (lv_before s)).

Definition set_before (v : list string) : W unit := fun s =>
  (Ok tt, mkWState (w_disk s) (w_slept s) (w_calls s) (w_out s) (lv_time s)
            (lv_lastchange s) v).

(** The store moves on while the watcher is blocked. *)
Definition blocked_for (secs : Z) (t : tick) : W unit := fun s =>
  (Ok tt, mkWState (t_disk t) (w_slept s + secs) (w_calls s) (w_out s) (lv_time s)
            (lv_lastchange s) (lv_before s)).

(** The longest sleep, in seconds: the interpreter keeps a duration as a
    signed 64-bit count of nanoseconds. *)
Definition max_sleep : Z := 9223372036.

(** [time.sleep(secs)].  An [import time] anywhere in the body of
    [addWatch] makes [time] a local name of the whole function: where no
    such import ran before, reading it raises [UnboundLocalError].  The
    call refuses, before it waits, a duration that does not fit
    ([OverflowError]) and a negative one ([ValueError]).  [handler] runs
    once for each signal delivered meanwhile, and what it raises comes out
    of the sleep. *)
Definition time_sleep (secs : Z) (handler : option (W unit)) (t : tick) : W unit :=
  s ← get_state;
  if lv_time s then
    if (secs <? (- max_sleep)) || (max_sleep <? secs) then
      raise (OverflowError "timestamp too large to convert to C _PyTime_t")
    else if secs <? 0 then raise (ValueError "sleep length must be non-negative")
    else
      match handler with
      | Some hd => mapM (fun _ => hd) (seq 0 (t_signals t));; blocked_for secs t
      | None => blocked_for secs t
      end
  else raise (UnboundLocalError "time").

Definition stat_mtime (p : string) : W Z :=
  s ← get_state; lift_result (os_stat_mtime (w_disk s) p).

Definition listdir (p : string) : W (list string) :=
  s ← get_state; lift_result (os_listdir (w_disk s) p).

(** [while cond: body], one blocking call in each round; the rounds end
    where the observed [ticks] end, with the watcher still [Blocked]. *)
Fixpoint while (cond : W bool) (body : tick -> W unit) (ticks : list tick)
    (s : WState) : outcome * WState :=
  match cond s with
  | (Raise e, s1) => (Raised e, s1)
  | (Ok false, s1) => (Returned, s1)
  | (Ok true, s1) =>
      match ticks with
      | [] => (Blocked, s1)
      | t :: rest =>
          match body t s1 with
          | (Raise e, s2) => (Raised e, s2)
          | (Ok _, s2) => while cond body rest s2
          end
      end
  end.

(** The table [ACTIONS]. *)
Definition ACTIONS (action : Z) : result string :=
  if action =? 1 then Ok "CREATE"
  else if action =? 2 then Ok "DELETE"
  else if action =? 3 then Ok "UPDATE"
  else if action =? 4 then Ok "CREATE"   (* actually renamed in from somewhere else *)
  else if action =? 5 then Ok "RENAME"
  else Raise (KeyError action).

Section Watch.
Context `{Collaborators}.
Variable host : WatchHost.
Variable watchFn : WatcherFn.
Variable source : string.        (* [self.abspath] *)
Variable isDir : bool.           (* [self.isDir] *)
Variable pollingInterval : Z.

(** One round of the loop of the [nt] branch. *)
Definition nt_round (t : tick) : W unit :=
  blocked_for 0 t;;
  results ← lift_result (t_events t);
  mapM (fun '(action, filename) =>
          let full_filename := os_path_join source filename in
          try_except
            (op ← lift_result (ACTIONS action); call watchFn full_filename op)
            (fun e =>
               (* cannot have this throw or it would prevent others executing *)
               wprint (exn_str e)))
       results;;
  mret tt.

Definition handler : W unit := call watchFn source "UPDATE".

(** One round of the polling loop over a single file. *)
Definition poll_file_round (t : tick) : W unit :=
  time_sleep (pollingInterval * 1000) None t;;
  try_except
    (m ← stat_mtime source;
     s ← get_state;
     if bool_decide (m <> lv_lastchange s) then
       m' ← stat_mtime source;
       set_lastchange m';;
       call watchFn source "UPDATE"
     else mret tt)
    (fun e =>
       (* cannot have user-supplied function throw *)
       wprint (exn_str e);;
       call watchFn source "DELETE").

(** One round of the polling loop over a directory. *)
Definition poll_dir_round (t : tick) : W unit :=
  time_sleep (pollingInterval * 1000) None t;;
  after ← listdir source;
  s ← get_state;
  let before := lv_before s in
  let added := filter (fun f => f ∉ before) after in
  let removed := filter (fun f => f ∉ after) before in
  mapM (fun filename => call watchFn source "CREATE") added;;
  (if bool_decide (removed <> []) then call watchFn source "REMOVE" else mret tt);;
  set_before after.

(** [OsItem.addWatch]. *)
Definition addWatch (ticks : list tick) (s : WState) : outcome * WState :=
  if String.eqb (host_name host) "nt" then
    let setup : W unit :=
      (if host_win32 host then mret tt else raise (ImportError "win32con"));;
      s ← get_state;
      if os_path_exists (w_disk s) source then mret tt
      else raise (OSError "CreateFile: the system cannot find the file specified") in
    match setup s with
    | (Raise e, s1) => (Raised e, s1)
    | (Ok _, s1) => while (mret true) nt_round ticks s1
    end
  else if String.eqb (host_name host) "posix" then
    let setup : W unit :=
      import_time;;
      (if host_SIGIO host then mret tt
       else wprint "WARN: unable to import signal.SIGIO");;
      s ← get_state;
      (if os_path_exists (w_disk s) source then mret tt
       else raise (OSError "No such file or directory"));;
      try_catch is_ImportError
        ((if host_fcntl host then mret tt else raise (ImportError "fcntl"));;
         (if host_dnotify host then mret tt
          else raise (AttributeError "module 'fcntl' has no attribute 'F_SETSIG'"));;
         (if os_path_isdir (w_disk s) source then mret tt
          else raise (OSError "Not a directory")))
        (fun _ => wprint "WARN: unable to import fcntl") in
    match setup s with
    | (Raise e, s1) => (Raised e, s1)
    | (Ok _, s1) =>
        while (mret true)
          (time_sleep (pollingInterval * 1000)
             (if host_SIGIO host then Some handler else None))
          ticks s1
    end
  else if negb isDir then
    match (m ← stat_mtime source; set_lastchange m) s with
    | (Raise e, s1) => (Raised e, s1)
    | (Ok _, s1) => while (mret true) poll_file_round ticks s1
    end
  else
    match (import_time;; names ← listdir source; set_before names) s with
    | (Raise e, s1) => (Raised e, s1)
    | (Ok _, s1) => while (mret true) poll_dir_round ticks s1
    end.

End Watch.

(** ** [OsFs._isRootPath] and [OsFs.read] *)

(** [OsFs._isRootPath]. *)
Definition _isRootPath (path : string) : bool :=
  if negb (String.eqb path "") && bool_decide (String.get 0 path = Some "/"%char) then
    (* linux style *)
    true
  else if (1 <? String.length path)%nat && bool_decide (String.get 1 path = Some ":"%char) then
    (* windows style *)
    true
  else false.

(** [s.startswith(p)] and [s[n:]]. *)
Definition startswith (p s : string) : bool :=
  match strip_prefix p s with Some _ => true | None => false end.

Fixpoint str_drop (n : nat) (s : string) : string :=
  match n, s with
  | O, _ => s
  | S k, String _ s' => str_drop k s'
  | S _, EmptyString => EmptyString
  end.

(** The pieces of [s] between the occurrences of [sep], found from the
    left and not overlapping; [skip] characters of an occurrence are still
    to be passed, [cur] is the piece being read. *)
Fixpoint split_from (sep : string) (skip : nat) (cur s : string) : list string :=
  match s with
  | EmptyString => [cur]
  | String c s' =>
      match skip with
      | S k => split_from sep k cur s'
      | O =>
          if startswith sep s then cur :: split_from sep (String.length sep - 1) "" s'
          else split_from sep 0 (cur ++ String c "") s'
      end
  end.

(** [s.split(sep)]. *)
Definition str_split (s sep : string) : result (list string) :=
  if String.eqb sep "" then Raise (ValueError "empty separator")
  else Ok (split_from sep 0 "" s).

(** [sep.join(l)]. *)
Definition str_join (sep : string) (l : list string) : string := String.concat sep l.

(** The double quote, for the message of [read]. *)
Definition dq : string := String (Ascii.ascii_of_nat 34) "".

(** [print(x)]. *)
Definition print (line : string) : M unit := fun s =>
  (Ok tt, mkState (heap s) (next_ref s) (files s) (next_file s) (close_fault s) (remove_fault s)
            (disk s) (now s) (stdout s ++ [line]) (stderr s)).

Section Read.
Variable pf : Platform.

(** [glob.glob], on the store as it is. *)
Variable glob_glob : store -> string -> list string.

(** The loop of [read] over the levels after the first, [currentPath]
    being the path reached. *)
Fixpoint read_levels (locationString : string) (levels : list string) (currentPath : string)
    : M (option pydata) :=
  match levels with
  | [] => mret None
  | level :: rest =>
      s ← get_state;
      if os_path_isdir (disk s) currentPath then
        (* this is a directory, so go into it *)
        read_levels locationString rest (currentPath ++ os_sep pf ++ level)
      else if os_path_isfile (disk s) currentPath then
        (* this is a file... possibly with more stuff in it *)
        mret None
      else
        (* This isn't an actual location.  Is it a glob? *)
        let foundAny := bool_decide (glob_glob (disk s) currentPath <> []) in
        (if negb foundAny then
           print ("File " ++ dq ++ locationString ++ dq ++ " not found.  (" ++ dq
                  ++ currentPath ++ dq ++ ") does not exist.")
         else mret tt);;
        read_levels locationString rest currentPath
  end.

(** [OsFs.read]; the value [None] of Python is [None]. *)
Definition OsFs_read (self : ref) (locationString : string)
    (justOne recursive printErrors : bool) : M (option pydata) :=
  '(locationString, split, sysLocation) ←
    (if startswith "file://" locationString then
       let locationString := str_drop 7 locationString in
       split ← lift_result (str_split locationString "/");
       mret (locationString, split, str_join (os_sep pf) split)
     else
       split ← lift_result (str_split locationString (os_sep pf));
       mret (locationString, split, locationString));
  if String.eqb locationString "_" || String.eqb locationString "stdin" then mret None
  else
    s ← get_state;
    if os_path_isfile (disk s) sysLocation then mret None
    else if os_path_isdir (disk s) sysLocation then mret None
    else
      match split with
      | [] => raise (LookupError "list index out of range")
      | first :: levels => read_levels locationString levels first
      end.

End Read.

(** ** What the operations are expected to produce *)

(** The entity that resolving [u] creates when something exists at its
    path: a directory entity for a directory, a file entity otherwise. *)
Definition resolved `{Collaborators} (fs : ref) (st : store) (u : URL) : obj :=
  if os_path_isdir st (path_or (filePath u) ".") then ODir (mkOsDirectory (Some u) fs None)
  else OFile (OsFile_init (Some u) fs default_mode).

(** Of a batch of change records, the calls owed to the callback, and the
    lines printed for the records whose action code is not in [ACTIONS]. *)
Definition notified `{Collaborators} (source : string) (records : list (Z * string))
    : list (string * string) :=
  omap (fun '(action, filename) =>
          match ACTIONS action with
          | Ok op => Some (os_path_join source filename, op)
          | Raise _ => None
          end) records.

Definition unknown_codes (records : list (Z * string)) : list string :=
  omap (fun '(action, filename) =>
          match ACTIONS action with
          | Ok _ => None
          | Raise e => Some (exn_str e)
          end) records.

(** The line [read] prints for a level it cannot find. *)
Definition not_found (locationString currentPath : string) : string :=
  "File " ++ dq ++ locationString ++ dq ++ " not found.  (" ++ dq ++ currentPath ++ dq
  ++ ") does not exist.".

(** A computation that leaves the store as it found it. *)
Definition keeps_disk {A} (c : M A) : Prop :=
  forall s r s', c s = (r, s') -> disk s' = disk s.


(** ** A reference instance of the collaborators *)

(** Locations as plain POSIX paths: [file://] is dropped from the front to
    get the path, a child is its parent, a separator and the name, and an
    entity is identified by its path.  Only UTF-8 is known to the codec,
    and text is kept as its UTF-8 bytes. *)
Module Reference.

Definition to_url (t : string) : URL :=
  mkURL t (Some (match strip_prefix "file://" t with Some p => p | None => t end)).

Definition child (u : URL) (c : string) : URL :=
  mkURL (url_text u ++ "/" ++ c) (option_map (fun p => p ++ "/" ++ c) (filePath u)).

Definition path_id (u : URL) : string :=
  match filePath u with Some p => p | None => "" end.

Definition encode (encoding t : string) : result (list Byte.byte) :=
  if String.eqb encoding "utf-8" then Ok (list_byte_of_string t)
  else Raise (LookupError ("unknown encoding: " ++ encoding)).

Definition decode_utf8 (encoding : string) (b : list Byte.byte) : result string :=
  if String.eqb encoding "utf-8" then Ok (string_of_list_byte b)
  else Raise (LookupError ("unknown encoding: " ++ encoding)).

Definition join (a b : string) : string := a ++ "/" ++ b.

#[export] Instance collaborators : Collaborators :=
  {| asUrl := to_url;
     url_child := child;
     fsId := path_id;
     str_encode := encode;
     bytes_decode := decode_utf8;
     os_path_join := join;
     default_mode := "r" |}.

(** A state with nothing on the heap and the given store. *)
Definition boot (st : store) : State :=
  mkState ∅ 0 ∅ 0 ∅ ∅ st 0 [] [].

Definition posix : Platform := mkPlatform "posix" "/" "/home/user".

End Reference.

(** The reading of the root property that places the entity at the
    location the driver was configured with: two accesses in a row give
    two new, distinct directory entities, each with the location of the
    driver [fs]. *)
Definition root_at_configured_location `{Collaborators} (fs : ref) (s : State) : Prop :=
  forall d1 s1 d2 s2,
    root fs s = (Ok d1, s1) -> root fs s1 = (Ok d2, s2) ->
    d1 <> d2 /\ heap s !! d1 = None /\ heap s1 !! d2 = None /\
    fst (item_url d1 s2) = fst (item_url fs s2) /\
    fst (item_url d2 s2) = fst (item_url fs s2).



(** No object sits at or above the next reference to be handed out. *)
Definition heap_wf (s : State) : Prop :=
  forall r : nat, (next_ref s <= r)%nat -> heap s !! r = None.

(** ** Scenarios *)

Module Scenario.
Import Reference.

(** The directory [/base] with the files [a.txt] and [b.txt]. *)
Definition base_store : store :=
  <["/base" := NDir 1]>
    (<["/base/a.txt" := NFile [Byte.x6f; Byte.x6c; Byte.x64] 1]>
       (<["/base/b.txt" := NFile [] 1]> ∅)).

(** A driver on [/base], at reference 0. *)
Definition with_driver : State :=
  snd (OsFs_init posix (Some (UStr "/base")) true (boot base_store)).

(** The driver and the entity of [/base/a.txt], never opened, at
    reference 1. *)
Definition with_file : State :=
  snd (_getFsItem 0%nat (UStr "/base/a.txt") with_driver).


(** The same with the entity open on a stream whose close will report an
    I/O error. *)
Definition with_failing_stream : State :=
  let s := snd (OsFile_open 1%nat (Some "r") with_file) in
  mkState (heap s) (next_ref s) (files s) (next_file s)
    (<[0%nat := OSError "Input/output error"]> (close_fault s)) (remove_fault s)
    (disk s) (now s) (stdout s) (stderr s).

(** The same store with [a.txt] protected against removal. *)
Definition with_protected_file : State :=
  mkState (heap with_file) (next_ref with_file) (files with_file) (next_file with_file)
    (close_fault with_file) (<["/base/a.txt" := OSError "Permission denied"]> ∅)
    (disk with_file) (now with_file) (stdout with_file) (stderr with_file).

(** A host that is neither [nt] nor [posix], left with polling. *)
Definition polling_host : WatchHost := mkWatchHost "java" false false false false.


Definition windows_host : WatchHost := mkWatchHost "nt" true false false false.

(** [a.txt] modified once, then left alone. *)
Definition modified_store : store :=
  <["/base/a.txt" := NFile [Byte.x6e; Byte.x65; Byte.x77] 2]> base_store.

Definition file_ticks : list tick :=
  [mkTick (Ok []) 0 modified_store; mkTick (Ok []) 0 modified_store].

(** [c.txt] appears in [/base], then [d.txt]. *)
Definition grown_store : store := <["/base/c.txt" := NFile [] 3]> base_store.
Definition grown_again : store := <["/base/d.txt" := NFile [] 4]> grown_store.

Definition dir_ticks : list tick :=
  [mkTick (Ok []) 0 grown_store; mkTick (Ok []) 0 grown_again].

(** A callback that fails on its first call only, and one that never
    fails. *)
Definition fails_once : WatcherFn := fun n _ _ =>
  match n with O => Some (UserException "boom") | _ => None end.

Definition quiet : WatcherFn := fun _ _ _ => None.

(** Two batches of change records: a creation, then an update. *)
Definition event_ticks : list tick :=
  [mkTick (Ok [(1, "c.txt")]) 0 grown_store; mkTick (Ok [(3, "c.txt")]) 0 grown_store].

End Scenario.

(** ** Further scenarios *)

Module Cases.
Import Reference.

(** The entity of [/base/a.txt] after [open('r')], holding stream 0. *)
Definition opened : State := snd (OsFile_open 1%nat (Some "r") Scenario.with_file).

(** The same after [seek(2)]. *)
Definition moved : State := snd (OsFile_seek 1%nat 2 0 opened).

(** The entity as [open('r')] leaves it, and its stream at the start and
    at position 2. *)
Definition a_txt_open : OsFile :=
  mkOsFile (Some (to_url "/base/a.txt")) 0%nat true "r" "" (Some (FStream 0%nat)).

Definition stream_at (pos : Z) : pyfile :=
  mkPyfile "/base/a.txt" false true false false pos false.

(** The driver of [/base] after its children were listed once: the
    generator at reference 1 is cached, the entities of [a.txt] and
    [b.txt] are at references 2 and 3. *)
Definition listed : State := snd ((g ← children 0%nat; py_list g) Scenario.with_driver).

Definition base_dir (cache : option ref) : OsDirectory :=
  mkOsDirectory (Some (to_url "/base")) 0%nat cache.

(** A driver on [/gone], which the store does not hold. *)
Definition lost : State :=
  snd (OsFs_init posix (Some (UStr "/gone")) true (boot Scenario.base_store)).

(** [/base] with a directory [sub] that holds [x.txt]; the driver at
    reference 0 and the entity of [/base/sub] at reference 1. *)
Definition tree_store : store :=
  <["/base/sub" := NDir 1]> (<["/base/sub/x.txt" := NFile [] 1]> Scenario.base_store).

Definition with_subdir : State :=
  snd (_getFsItem 0%nat (UStr "/base/sub")
         (snd (OsFs_init posix (Some (UStr "/base")) true (boot tree_store)))).

(** The same after the children of the driver were listed once: the
    generator at reference 2 is cached, the entities of the three entries
    of [/base] are at references 3 to 5. *)
Definition listed_tree : State := snd ((g ← children 0%nat; py_list g) with_subdir).

(** The parent of an entity that sits directly under [/base], resolved
    through the driver at reference 0: each access creates an entity. *)
Definition parent_in_base : ref -> M ref := fun _ => _getFsItem 0%nat (UStr "/base").

(** A batch with a creation, a record of unknown code, and a rename from
    elsewhere. *)
Definition mixed_batch : tick :=
  mkTick (Ok [(1, "c.txt"); (9, "x"); (4, "d.txt")]) 0 Scenario.grown_store.





End Cases.


(** The instance [T] of a theorem, its hypotheses left to prove, closes
    the goal it is convertible with. *)
Tactic Notation "by_instance" uconstr(T) :=
  let W := fresh "W" in
  unshelve (epose proof T as W); [.. | exact W].

(** * Properties *)

(** ** File entities *)

Lemma get_file_at (self : ref) (f : OsFile) (s : State) :
  heap s !! self = Some (OFile f) -> get_file self s = (Ok f, s).
Proof. intros E. unfold get_file. now rewrite E. Qed.

Lemma assign_at (self : ref) (f : OsFile) (upd : OsFile -> OsFile) (s : State) :
  heap s !! self = Some (OFile f) ->
  assign self upd s = (Ok tt, with_heap s (<[self := OFile (upd f)]> (heap s))).
Proof.
  intros E. unfold assign, mbind, ST_bind. now rewrite (get_file_at _ _ _ E).
Qed.

(** A successful [open(...)] leaves the heap alone and hands out a new,
    open file object. *)
Lemma builtin_open_Ok (path m : string) (enc : option string) (s s' : State) (h : nat) :
  builtin_open path m enc s = (Ok h, s') ->
  heap s' = heap s /\ h = next_file s /\
  exists pf, files s' !! h = Some pf /\ pf_closed pf = false.
Proof.
  unfold builtin_open. destruct (check_open_args m enc); [|discriminate].
  destruct (os_open _ _ _ _) as [[st pos]|]; [|discriminate].
  intros [= <- <-]. cbn. repeat split.
  eexists. rewrite lookup_insert_eq. split; reflexivity.
Qed.

(** A failed [open(...)] changes nothing. *)
Lemma builtin_open_Raise (path m : string) (enc : option string) (s s' : State) (e : exn) :
  builtin_open path m enc s = (Raise e, s') -> s' = s.
Proof.
  unfold builtin_open. destruct (check_open_args m enc).
  - destruct (os_open _ _ _ _) as [[st pos]|]; [discriminate|]. now intros [= _ <-].
  - now intros [= _ <-].
Qed.

(** No binary mode gets past [open] once an encoding is given. *)
Lemma binary_with_encoding (m enc : string) :
  has_char "b" m = true ->
  exists msg, check_open_args m (Some enc) = Raise (ValueError msg).
Proof.
  intros B. unfold check_open_args.
  destruct (negb (all_in "axrwb+t" m && nodup_chars m)); [eexists; reflexivity|].
  destruct (has_char "t" m && has_char "b" m); [eexists; reflexivity|].
  destruct (1 <? _)%nat; [eexists; reflexivity|].
  destruct (negb _); [eexists; reflexivity|].
  rewrite B. cbn. eexists; reflexivity.
Qed.


(** [open] with a binary mode on an unopened entity with a concrete path:
    the entity is flagged open and remembers the mode, and the built-in
    [open] refuses the encoding. *)
Lemma open_binary_raises (self : ref) (f : OsFile) (s : State) (t path m : string) :
  heap s !! self = Some (OFile f) -> _f f = None ->
  url f = Some (mkURL t (Some path)) ->
  has_char "b" m = true ->
  exists msg,
    OsFile_open self (Some m) s =
      (Raise (ValueError msg),
       with_heap s (<[self := OFile (set__fileAccessMode (set_isOpen f true) m)]> (heap s))).
Proof.
  intros E N U B. destruct (binary_with_encoding m "utf-8" B) as [msg C].
  exists msg. unfold OsFile_open, open_body, mbind, ST_bind.
  rewrite (get_file_at _ _ _ E), N, U.
  rewrite (assign_at _ _ _ _ E). cbn.
  unfold get_file at 1. cbn. rewrite lookup_insert_eq.
  unfold assign, mbind, ST_bind, get_file, put_file. cbn.
  rewrite lookup_insert_eq. cbn. unfold builtin_open. rewrite C. cbn.
  now rewrite insert_insert_eq.
Qed.

Section FileClaims.
Context `{Collaborators}.

(** [write] on an unopened entity never reaches the store. *)
Lemma write_unopened_raises (self : ref) (f : OsFile) (s : State) (t path : string)
    (data : pydata) (encoding : string) :
  heap s !! self = Some (OFile f) -> _f f = None ->
  url f = Some (mkURL t (Some path)) ->
  exists msg s',
    OsFile_write self data encoding s = (Raise (ValueError msg), s') /\
    disk s' = disk s /\ files s' = files s.
Proof.
  intros E N U.
  destruct (open_binary_raises self f s t path "wb" E N U eq_refl) as [msg O].
  exists msg. eexists. unfold OsFile_write, mbind, ST_bind.
  rewrite (get_file_at _ _ _ E), N. rewrite O. split; [reflexivity|]. split; reflexivity.
Qed.

(** Nor does [read] on an unopened entity return anything. *)
Lemma read_unopened_raises (self : ref) (f : OsFile) (s : State) (t path : string)
    (numBytes : option Z) (encoding : option string) :
  heap s !! self = Some (OFile f) -> _f f = None ->
  url f = Some (mkURL t (Some path)) ->
  exists msg s', OsFile_read self numBytes encoding s = (Raise (ValueError msg), s').
Proof.
  intros E N U.
  destruct (open_binary_raises self f s t path "rb" E N U eq_refl) as [msg O].
  exists msg. eexists. unfold OsFile_read, mbind, ST_bind.
  rewrite (get_file_at _ _ _ E), N. rewrite O. reflexivity.
Qed.

End FileClaims.




Section SeekEvaluated.
Import Reference.



End SeekEvaluated.

Section RoundTrip.
Import Reference.

(** C2.  The round trip does not hold: on the never-opened entity of
    [/base/a.txt], [write(b"hi")] raises [ValueError] from the implicit
    [open('wb')], which hands the built-in [open] an encoding together with
    a binary mode.  Nothing is written (the file keeps its old content),
    and [read()] on the same entity, after [close()] or at once, raises
    the same error from [open('rb')]. *)
Theorem write_read_round_trip_broken :
  let B := [Byte.x68; Byte.x69] in
  let refused := ValueError "binary mode doesn't take an encoding argument" in
  let written := OsFile_write 1%nat (PyBytes B) "utf-8" Scenario.with_file in
  let reread := (OsFile_close 1%nat;; OsFile_read 1%nat None None) (snd written) in
  fst written = Raise refused /\
  file_content (disk (snd written)) "/base/a.txt" = [Byte.x6f; Byte.x6c; Byte.x64] /\
  fst reread = Raise refused /\
  file_content (disk (snd reread)) "/base/a.txt" <> B /\
  fst (OsFile_read 1%nat None None Scenario.with_file) = Raise refused.
Proof. vm_compute. repeat split; discriminate. Qed.

End RoundTrip.

(** ** Destruction *)

Lemma pf_close_spec (h : nat) (s : State) :
  exists s',
    pf_close h s = (match pending_error s h with Some e => Raise e | None => Ok tt end, s') /\
    heap s' = heap s /\ disk s' = disk s /\ stdout s' = stdout s /\ stderr s' = stderr s /\
    (forall pf, files s !! h = Some pf ->
       exists pf', files s' !! h = Some pf' /\ pf_closed pf' = true).
Proof.
  unfold pf_close, pending_error.
  destruct (files s !! h) as [pf|] eqn:F.
  - destruct (pf_closed pf) eqn:C.
    + exists s. repeat split. intros pf' [= <-]. eauto.
    + eexists. split.
      * destruct (close_fault s !! h); reflexivity.
      * cbn. repeat split. intros pf' _. exists (set_closed pf).
        now rewrite lookup_insert_eq.
  - exists s. repeat split. discriminate.
Qed.

(** What [__del__] does to a file entity, by what [_f] holds. *)
Lemma OsFile_del_spec (self : ref) (f : OsFile) (s : State) :
  heap s !! self = Some (OFile f) ->
  exists s1,
    OsFile_del self s =
      (match _f f with
       | None => Ok tt
       | Some (FEntity _) => Raise RecursionError
       | Some (FStream h) =>
           match pending_error s h with Some e => Raise e | None => Ok tt end
       end, s1) /\
    stdout s1 = stdout s /\ disk s1 = disk s /\ stderr s1 = stderr s /\
    (forall h pf, _f f = Some (FStream h) -> files s !! h = Some pf ->
       exists pf', files s1 !! h = Some pf' /\ pf_closed pf' = true).
Proof.
  intros E. unfold OsFile_del, OsFile_close, mbind, ST_bind.
  rewrite (get_file_at _ _ _ E).
  destruct (_f f) as [[h|r]|] eqn:F.
  - rewrite (assign_at _ _ _ _ E). cbn.
    unfold assign at 1, get_file at 1, mbind, ST_bind. cbn.
    rewrite lookup_insert_eq. cbn. unfold get_file at 1. cbn.
    rewrite lookup_insert_eq. cbn. rewrite F. cbn.
    match goal with |- context [pf_close h ?s0] =>
      destruct (pf_close_spec h s0) as (s1 & P & Hh & Hd & Ho & He & Hc);
      change (pending_error s0 h) with (pending_error s h) in P; rewrite P
    end.
    cbn in Hh, Hd, Ho, He, Hc.
    destruct (pending_error s h) as [e|]; cbn.
    + exists s1. do 4 (split; [assumption || reflexivity|]).
      intros h' pf [= <-] Hpf. eauto.
    + unfold assign, get_file, put_file, mbind, ST_bind. rewrite Hh, lookup_insert_eq. cbn.
      eexists. split; [reflexivity|]. cbn.
      do 3 (split; [assumption|]).
      intros h' pf [= <-] Hpf. eauto.
  - rewrite (assign_at _ _ _ _ E). cbn.
    unfold assign at 1, get_file at 1, mbind, ST_bind. cbn.
    rewrite lookup_insert_eq. cbn. unfold get_file at 1. cbn.
    rewrite lookup_insert_eq. cbn. rewrite F. cbn.
    eexists. split; [reflexivity|]. cbn.
    do 3 (split; [reflexivity|]). discriminate.
  - cbn. eexists. split; [reflexivity|]. cbn.
    do 3 (split; [reflexivity|]). discriminate.
Qed.

(** C8.  Destroying a file entity runs [__del__], which closes: a stream
    the entity holds is closed afterwards.  Whatever [__del__] raises (the
    pending error of the stream's close included) is not propagated:
    destruction returns normally, with one line on standard error in that
    case and nothing else printed or written. *)
Theorem destroy_closes_quietly (self : ref) (f : OsFile) (s : State) :
  heap s !! self = Some (OFile f) ->
  exists s',
    destroy self s = (Ok tt, s') /\
    stdout s' = stdout s /\ disk s' = disk s /\
    stderr s' =
      (stderr s ++
       match fst (OsFile_del self s) with
       | Ok _ => []
       | Raise e => [("Exception ignored in: OsFile.__del__: " ++ exn_str e)%string]
       end)%list /\
    (forall h pf, _f f = Some (FStream h) -> files s !! h = Some pf ->
       fst (OsFile_del self s) =
         match pending_error s h with Some e => Raise e | None => Ok tt end /\
       exists pf', files s' !! h = Some pf' /\ pf_closed pf' = true).
Proof.
  intros E. destruct (OsFile_del_spec self f s E) as (s1 & D & Ho & Hd & He & Hc).
  unfold destroy. rewrite D. cbn.
  eexists. split; [reflexivity|]. cbn. rewrite Ho, Hd, He.
  do 2 (split; [reflexivity|]). split.
  - destruct (_f f) as [[h|r]|]; [destruct (pending_error s h)| |];
      cbn; now rewrite ?app_nil_r.
  - intros h pf F Hpf. rewrite F. split; [reflexivity|]. eauto.
Qed.

(** The entity of [/base/a.txt], open on a stream whose close reports an
    I/O error: destruction returns normally and leaves one line on
    standard error. *)
Lemma destroy_closes_quietly_witness :
  exists s',
    destroy 1%nat Scenario.with_failing_stream = (Ok tt, s') /\
    stderr s' = ["Exception ignored in: OsFile.__del__: Input/output error"] /\
    fst (OsFile_del 1%nat Scenario.with_failing_stream)
      = Raise (OSError "Input/output error") /\
    exists pf', files s' !! 0%nat = Some pf' /\ pf_closed pf' = true.
Proof.
  destruct (destroy_closes_quietly 1%nat
              (mkOsFile (Some (Reference.to_url "/base/a.txt")) 0%nat true "r" ""
                 (Some (FStream 0%nat)))
              Scenario.with_failing_stream)
    as (s' & D & _ & _ & E & C).
  - vm_compute. reflexivity.
  - exists s'. split; [exact D|]. split; [exact E|].
    destruct (C 0%nat (mkPyfile "/base/a.txt" false true false false 0 false)
                eq_refl eq_refl) as [R P].
    split; [exact R | exact P].
Defined.

(** ** The driver *)

Section DriverClaims.
Context `{Collaborators}.

Lemma asUrl_any_state (x : UrlCompatible) (s s' : State) (r : result URL) :
  asUrl_any x s = (r, s') -> s' = s.
Proof.
  destruct x as [t|u|i]; cbn.
  - now intros [= _ <-].
  - now intros [= _ <-].
  - unfold item_url. destruct (heap s !! i) as [[f|d|d c|g]|];
      try destruct (url f); try destruct (d_url d); now intros [= _ <-].
Qed.

(** C4.  Typed resolution of a location, whose normalized form is [u] and
    whose path is [path] (the current directory when [u] has none): it
    raises exactly when nothing exists at [path], and then the
    does-not-exist error for [path]; it returns a new directory entity when
    the store holds a directory there, and a new file entity when the
    store holds a file there, or anything else that is not a directory.
    Only the store's answer for [path] decides, never the name. *)
Theorem getFsItem_typed (self : ref) (x : UrlCompatible) (u : URL) (s : State) :
  asUrl_any x s = (Ok u, s) ->
  let path := path_or (filePath u) "." in
  let r := _getFsItem self x s in
  (fst r = Raise (NoFileException path) <-> os_path_exists (disk s) path = false) /\
  (forall e, fst r = Raise e -> e = NoFileException path) /\
  (os_path_isdir (disk s) path = true ->
   fst r = Ok (next_ref s) /\
   heap (snd r) !! next_ref s = Some (ODir (mkOsDirectory (Some u) self None))) /\
  (os_path_isfile (disk s) path = true ->
   fst r = Ok (next_ref s) /\
   heap (snd r) !! next_ref s = Some (OFile (OsFile_init (Some u) self default_mode))) /\
  (os_path_exists (disk s) path = true -> os_path_isdir (disk s) path = false ->
   fst r = Ok (next_ref s) /\
   heap (snd r) !! next_ref s = Some (OFile (OsFile_init (Some u) self default_mode))).
Proof.
  intros A path r. subst r. unfold _getFsItem, mbind, ST_bind. rewrite A. cbn.
  fold path. unfold os_path_isdir, os_path_exists, os_path_isfile.
  destruct (disk s !! path) as [[t|c t|t]|]; cbn;
    unfold OsDirectory_new, OsFile_new, mbind, ST_bind; cbn;
    rewrite ?lookup_insert_eq;
    (split; [split; [discriminate || reflexivity | discriminate || reflexivity]|]);
    (split; [intros e; (discriminate || now intros [= <-])|]);
    (split; [intros; (discriminate || (split; reflexivity))|]);
    (split; intros; (discriminate || (split; reflexivity))).
Qed.

(** C9, amended.  Every access of [root] allocates a new directory entity
    that belongs to the driver and sits at the fixed location [file://],
    whatever location the driver was configured with: two accesses in a
    row return two distinct references, unused before, and apart from the
    two new entities the heap is as it was, so nothing is cached. *)
Theorem root_fresh (fs : ref) (s : State) :
  heap_wf s ->
  let top := ODir (mkOsDirectory (Some (asUrl "file://")) fs None) in
  exists s1 s2,
    root fs s = (Ok (next_ref s), s1) /\
    root fs s1 = (Ok (S (next_ref s)), s2) /\
    next_ref s <> S (next_ref s) /\
    heap s !! next_ref s = None /\
    heap s1 !! S (next_ref s) = None /\
    heap s1 = <[next_ref s := top]> (heap s) /\
    heap s2 = <[S (next_ref s) := top]> (<[next_ref s := top]> (heap s)) /\
    disk s2 = disk s.
Proof.
  intros W top. unfold root, OsDirectory_new, mbind, ST_bind. cbn.
  eexists. eexists.
  split; [reflexivity|]. split; [reflexivity|]. cbn.
  split; [lia|]. split; [apply W; lia|].
  split; [|repeat split].
  rewrite lookup_insert_ne by lia. apply W. lia.
Qed.

End DriverClaims.

Section DeleteClaims.
Context `{Collaborators}.
Variable item_parent : ref -> M ref.

(** C10.  When the removal that [_delete] performs on the store raises,
    [_delete] raises the same error, and the heap is left as it was: no
    directory lost its cached children, the parent's included, since the
    parent is looked up and marked dirty only after the removal. *)
Theorem delete_failure_keeps_cache (self fsItem : ref) (u : URL) (s : State)
    (e : exn) (st : store) :
  item_url fsItem s = (Ok u, s) ->
  (if is_OsDirectory s fsItem then shutil_rmtree else os_remove)
    (disk s) (remove_fault s) (fsId u) = (Raise e, st) ->
  exists s',
    _delete item_parent self fsItem s = (Raise e, s') /\
    heap s' = heap s /\
    (forall p d, get_dir p s = (Ok d, s) -> get_dir p s' = (Ok d, s')).
Proof.
  intros U R. exists (with_disk s st).
  unfold _delete, mbind, ST_bind. cbn.
  destruct (is_OsDirectory s fsItem); rewrite U; unfold on_disk; rewrite R; cbn;
    (split; [reflexivity|]; split; [reflexivity|]);
    intros p d; unfold get_dir; cbn;
    destruct (heap s !! p) as [[f|d'|d' c|g]|]; intros [= <-]; reflexivity.
Qed.

End DeleteClaims.

Section DriverEvaluated.
Import Reference.

(** Resolution of [/base/a.txt] on the driver of [/base]: the store holds
    a file there, and a file entity comes back. *)
Lemma getFsItem_typed_witness :
  let r := _getFsItem 0%nat (UStr "/base/a.txt") Scenario.with_driver in
  os_path_isfile (disk Scenario.with_driver) "/base/a.txt" = true /\
  fst r = Ok 1%nat /\
  heap (snd r) !! 1%nat =
    Some (OFile (OsFile_init (Some (to_url "/base/a.txt")) 0%nat "r")).
Proof.
  pose proof (getFsItem_typed 0%nat (UStr "/base/a.txt") (to_url "/base/a.txt")
                Scenario.with_driver eq_refl) as T.
  cbv zeta in T. destruct T as (_ & _ & _ & F & _).
  assert (I : os_path_isfile (disk Scenario.with_driver) "/base/a.txt" = true)
    by (vm_compute; reflexivity).
  split; [exact I|]. exact (F I).
Defined.

(** C9, as stated, fails on a driver configured with [/base]: the entity
    [root] returns is at [file://], not at the driver's location. *)
Lemma root_not_at_configured_location :
  ~ root_at_configured_location 0%nat Scenario.with_driver.
Proof.
  intros C.
  destruct (C 1%nat (snd (root 0%nat Scenario.with_driver)) 2%nat
              (snd (root 0%nat (snd (root 0%nat Scenario.with_driver))))
              eq_refl eq_refl) as (_ & _ & _ & U & _).
  vm_compute in U. discriminate U.
Qed.

(** Two accesses of [root] on the driver of [/base]. *)
Lemma root_fresh_witness :
  let top := ODir (mkOsDirectory (Some (to_url "file://")) 0%nat None) in
  exists s1 s2,
    root 0%nat Scenario.with_driver = (Ok 1%nat, s1) /\
    root 0%nat s1 = (Ok 2%nat, s2) /\
    heap s2 = <[2%nat := top]> (<[1%nat := top]> (heap Scenario.with_driver)).
Proof.
  assert (W : heap_wf Scenario.with_driver).
  { intros r L. change (next_ref Scenario.with_driver) with 1%nat in L.
    assert (E : heap Scenario.with_driver
                = <[0%nat := OFs (mkOsDirectory (Some (to_url "/base")) 0%nat None) true]> ∅)
      by (vm_compute; reflexivity).
    rewrite E, lookup_insert_ne by lia. apply lookup_empty. }
  destruct (root_fresh 0%nat Scenario.with_driver W)
    as (s1 & s2 & R1 & R2 & _ & _ & _ & _ & H2 & _).
  exists s1, s2. split; [exact R1|]. split; [exact R2|]. exact H2.
Defined.

(** Deleting [/base/a.txt] while the system refuses its removal: the
    error comes out and the heap stays. *)
Lemma delete_failure_keeps_cache_witness :
  exists s',
    _delete (fun _ => mret 0%nat) 0%nat 1%nat Scenario.with_protected_file
      = (Raise (OSError "Permission denied"), s') /\
    heap s' = heap Scenario.with_protected_file.
Proof.
  destruct (delete_failure_keeps_cache (fun _ => mret 0%nat) 0%nat 1%nat
              (to_url "/base/a.txt") Scenario.with_protected_file
              (OSError "Permission denied") (disk Scenario.with_protected_file))
    as (s' & D & Hh & _).
  - vm_compute. reflexivity.
  - vm_compute. reflexivity.
  - exists s'. split; [exact D | exact Hh].
Defined.

End DriverEvaluated.

(** ** Directory listings *)

Section ChildrenClaims.
Context `{Collaborators}.

(** A read of [children] with a cached value returns it and changes
    nothing. *)
Lemma children_cached (self : ref) (d : OsDirectory) (g : ref) (s : State) :
  get_dir self s = (Ok d, s) -> _children d = Some g ->
  children self s = (Ok g, s).
Proof.
  intros D C. unfold children, mbind, ST_bind. rewrite D, C. cbn.
  now rewrite D, C.
Qed.

(** A finished generator yields nothing. *)
Lemma finished_yields_nothing (g : ref) (s : State) :
  heap s !! g = Some (OGen GenFinished) -> py_list g s = (Ok [], s).
Proof.
  intros G. unfold py_list, rounds_left, mbind, ST_bind. cbn. rewrite G. cbn.
  unfold gen_next, mbind, ST_bind, get_gen. now rewrite G.
Qed.

(** Resolution allocates one object and touches nothing else. *)
Lemma getFsItem_alloc (fs : ref) (x : UrlCompatible) (s s' : State) (item : ref) :
  _getFsItem fs x s = (Ok item, s') ->
  item = next_ref s /\ next_ref s' = S (next_ref s) /\
  exists o, heap s' = <[next_ref s := o]> (heap s).
Proof.
  unfold _getFsItem, mbind, ST_bind.
  destruct (asUrl_any x s) as [[u|e] s0] eqn:A; [|discriminate].
  apply asUrl_any_state in A as ->. cbn.
  destruct (os_path_isdir _ _); [|destruct (os_path_exists _ _)];
    unfold OsDirectory_new, OsFile_new, mbind, ST_bind; cbn;
    try discriminate; intros [= <- <-]; cbn; eauto.
Qed.

Lemma iterate_S (n : nat) (g : ref) (s : State) :
  iterate (S n) g s =
    match gen_next g s with
    | (Ok None, s1) => (Ok [], s1)
    | (Ok (Some item), s1) =>
        match iterate n g s1 with
        | (Ok items, s2) => (Ok (item :: items), s2)
        | (Raise e, s2) => (Raise e, s2)
        end
    | (Raise e, s1) => (Raise e, s1)
    end.
Proof.
  cbn [iterate]. unfold mbind at 1, ST_bind at 1.
  destruct (gen_next g s) as [[[item|]|e] s1]; reflexivity.
Qed.

Lemma gen_next_suspended (g fs : ref) (u : URL) (names : list string) (s : State) :
  heap s !! g = Some (OGen (GenSuspended fs u names)) ->
  gen_next g s = gen_round g fs u names s.
Proof. intros G. unfold gen_next, mbind, ST_bind, get_gen. now rewrite G. Qed.

Lemma gen_round_nil (g fs : ref) (u : URL) (s : State) :
  gen_round g fs u [] s = (Ok None, with_heap s (<[g := OGen GenFinished]> (heap s))).
Proof. reflexivity. Qed.

Lemma gen_round_cons (g fs : ref) (u : URL) (c : string) (rest : list string) (s : State) :
  gen_round g fs u (c :: rest) s =
    match _getFsItem fs (UUrl (url_child u c))
            (with_heap s (<[g := OGen GenFinished]> (heap s))) with
    | (Ok item, s1) =>
        (Ok (Some item), with_heap s1 (<[g := OGen (GenSuspended fs u rest)]> (heap s1)))
    | (Raise e, s1) => (Raise e, s1)
    end.
Proof.
  cbn [gen_round]. unfold mbind, ST_bind, put_gen.
  now destruct (_getFsItem _ _ _) as [[item|e] s1].
Qed.

(** The first [next] of a generator lists the directory and goes on as a
    suspended one would. *)
Lemma gen_next_created (g fs arg : ref) (u : URL) (names : list string) (s : State) :
  heap s !! g = Some (OGen (GenCreated fs arg)) -> arg <> g ->
  item_url arg s = (Ok u, s) ->
  os_listdir (disk s) (path_or (filePath u) ".") = Ok names ->
  gen_next g s = gen_round g fs u names s.
Proof.
  intros G A Iu Ls. unfold gen_next, mbind at 1, ST_bind at 1, get_gen. rewrite G.
  unfold mbind at 1, ST_bind at 1, put_gen at 1.
  unfold mbind at 1, ST_bind at 1. cbn [asUrl_any].
  assert (Iu2 : item_url arg (with_heap s (<[g := OGen GenFinished]> (heap s)))
                = (Ok u, with_heap s (<[g := OGen GenFinished]> (heap s)))).
  { revert Iu. unfold item_url. cbn. rewrite lookup_insert_ne by congruence.
    destruct (heap s !! arg) as [[f|d|d c|g']|];
      try destruct (url f); try destruct (d_url d); now intros [= <-]. }
  rewrite Iu2. unfold mbind at 1, ST_bind at 1. cbn [get_state].
  unfold mbind at 1, ST_bind at 1, lift_result at 1. cbn [disk with_heap].
  rewrite Ls. destruct names as [|c rest].
  - rewrite gen_round_nil. cbn. now rewrite insert_insert_eq.
  - rewrite !gen_round_cons. cbn [heap with_heap]. now rewrite insert_insert_eq.
Qed.

(** Iterating a suspended generator to its end leaves it finished, and
    leaves every other object that was there before as it was. *)
Lemma iterate_exhausts (names : list string) :
  forall (fs : ref) (u : URL) (g : ref) (s s' : State) (l : list ref),
    heap s !! g = Some (OGen (GenSuspended fs u names)) ->
    (g < next_ref s)%nat ->
    iterate (S (length names)) g s = (Ok l, s') ->
    heap s' !! g = Some (OGen GenFinished) /\
    (forall r : ref, (r < next_ref s)%nat -> r <> g -> heap s' !! r = heap s !! r).
Proof.
  induction names as [|c rest IH]; intros fs u g s s' l G L;
    rewrite iterate_S, (gen_next_suspended _ _ _ _ _ G).
  - rewrite gen_round_nil. intros [= <- <-]. cbn. split; [apply lookup_insert_eq|].
    intros r _ N. now apply lookup_insert_ne.
  - rewrite gen_round_cons.
    destruct (_getFsItem _ _ _) as [[item|e] s1] eqn:I; [|discriminate].
    apply getFsItem_alloc in I. cbn in I. destruct I as (-> & N1 & o & H1).
    cbn [length].
    destruct (iterate _ _ _) as [[items|e] s2] eqn:It; [|discriminate].
    intros [= <- <-].
    apply (IH fs u) in It; cbn.
    + destruct It as [F O]. split; [exact F|].
      intros r Lr Nr. rewrite O by (cbn; lia || assumption). cbn.
      rewrite lookup_insert_ne by congruence. rewrite H1.
      rewrite lookup_insert_ne by lia. now apply lookup_insert_ne.
    + apply lookup_insert_eq.
    + lia.
Qed.

(** The same from a generator not yet started, whose listing succeeds. *)
Lemma py_list_exhausts (fs arg g : ref) (s s' : State) (l : list ref) :
  heap s !! g = Some (OGen (GenCreated fs arg)) ->
  (g < next_ref s)%nat -> arg <> g ->
  py_list g s = (Ok l, s') ->
  heap s' !! g = Some (OGen GenFinished) /\
  (forall r : ref, (r < next_ref s)%nat -> r <> g -> heap s' !! r = heap s !! r).
Proof.
  intros G L A. unfold py_list, mbind at 1, ST_bind at 1. cbn [get_state].
  unfold rounds_left. rewrite G.
  destruct (item_url arg s) as [[u|e] s0] eqn:Iu.
  - assert (s0 = s) as ->.
    { revert Iu. unfold item_url.
      destruct (heap s !! arg) as [[f|d|d c|g']|];
        try destruct (url f); try destruct (d_url d); now intros [= <-]. }
    destruct (os_listdir (disk s) (path_or (filePath u) ".")) as [names|e] eqn:Ls.
    + assert (R : gen_round g fs u names
                    (with_heap s (<[g := OGen (GenSuspended fs u names)]> (heap s)))
                  = gen_round g fs u names s).
      { destruct names as [|c rest].
        - rewrite !gen_round_nil. cbn. now rewrite insert_insert_eq.
        - rewrite !gen_round_cons. cbn [heap with_heap]. now rewrite insert_insert_eq. }
      assert (E : iterate (S (length names)) g
                    (with_heap s (<[g := OGen (GenSuspended fs u names)]> (heap s)))
                  = iterate (S (length names)) g s).
      { rewrite !iterate_S, (gen_next_created g fs arg u names s G A Iu Ls).
        rewrite (gen_next_suspended g fs u names) by apply lookup_insert_eq.
        now rewrite R. }
      rewrite <- E. intros It.
      apply (iterate_exhausts names fs u) in It; cbn; [|apply lookup_insert_eq|assumption].
      destruct It as [F O]. split; [exact F|].
      intros r Lr Nr. rewrite O by assumption. cbn. now apply lookup_insert_ne.
    + rewrite iterate_S.
      unfold gen_next, mbind at 1, ST_bind at 1, get_gen. rewrite G.
      unfold mbind at 1, ST_bind at 1, put_gen at 1.
      unfold mbind at 1, ST_bind at 1. cbn [asUrl_any].
      assert (Iu2 : item_url arg (with_heap s (<[g := OGen GenFinished]> (heap s)))
                    = (Ok u, with_heap s (<[g := OGen GenFinished]> (heap s)))).
      { revert Iu. unfold item_url. cbn. rewrite lookup_insert_ne by congruence.
        destruct (heap s !! arg) as [[f|d|d c|g']|];
          try destruct (url f); try destruct (d_url d); now intros [= <-]. }
      rewrite Iu2. unfold mbind at 1, ST_bind at 1. cbn [get_state].
      unfold mbind at 1, ST_bind at 1, lift_result at 1. cbn [disk with_heap].
      rewrite Ls. discriminate.
  - rewrite iterate_S.
    unfold gen_next, mbind at 1, ST_bind at 1, get_gen. rewrite G.
    unfold mbind at 1, ST_bind at 1, put_gen at 1.
    unfold mbind at 1, ST_bind at 1. cbn [asUrl_any].
    destruct (item_url arg (with_heap s _)) as [[u|e'] s1] eqn:Iu2; [|discriminate].
    exfalso. revert Iu Iu2. unfold item_url. cbn. rewrite lookup_insert_ne by congruence.
    destruct (heap s !! arg) as [[f|d|d c|g']|];
      try destruct (url f); try destruct (d_url d); congruence.
Qed.

(** The first read of [children] creates a generator, not yet started,
    and stores it in the directory. *)
Lemma children_first (self : ref) (d : OsDirectory) (s : State) :
  get_dir self s = (Ok d, s) -> _children d = None -> (self < next_ref s)%nat ->
  exists s1,
    children self s = (Ok (next_ref s), s1) /\
    next_ref s1 = S (next_ref s) /\
    heap s1 !! next_ref s = Some (OGen (GenCreated (d_filesystem d) self)) /\
    get_dir self s1
      = (Ok (mkOsDirectory (d_url d) (d_filesystem d) (Some (next_ref s))), s1).
Proof.
  intros D C L. unfold children, mbind at 1, ST_bind at 1. rewrite D, C.
  unfold mbind at 1, ST_bind at 1, _dir, mbind at 1, ST_bind at 1, alloc at 1.
  set (s0 := mkState _ _ _ _ _ _ _ _ _ _).
  assert (D0 : get_dir self s0 = (Ok d, s0)).
  { revert D. unfold get_dir. subst s0. cbn. rewrite lookup_insert_ne by lia.
    destruct (heap s !! self) as [[f|d'|d' c|g']|]; now intros [= <-]. }
  unfold mbind at 1, ST_bind at 1. rewrite D0. cbv beta iota.
  set (d1 := mkOsDirectory (d_url d) (d_filesystem d) (Some (next_ref s))).
  assert (P : exists o, put_dir self d1 s0 = (Ok tt, with_heap s0 (<[self := o]> (heap s0)))
                        /\ get_dir self (with_heap s0 (<[self := o]> (heap s0)))
                           = (Ok d1, with_heap s0 (<[self := o]> (heap s0)))).
  { revert D0. unfold put_dir, get_dir.
    destruct (heap s0 !! self) as [[f|d'|d' c|g']|]; try discriminate; intros _;
      eexists; (split; [reflexivity|]); cbn; now rewrite lookup_insert_eq. }
  destruct P as (o & P & D1).
  change (put_dir self _ s0) with (put_dir self d1 s0). rewrite P.
  unfold mbind, ST_bind. rewrite D1. cbn [_children d1].
  eexists. split; [reflexivity|]. split; [reflexivity|]. split; [|exact D1].
  cbn. rewrite lookup_insert_ne by lia. apply lookup_insert_eq.
Qed.

(** For any directory read for the first time: once the value [children]
    returned has been iterated to its end, the next read returns the same
    object, and iterating it yields nothing. *)
Lemma second_listing_is_empty (self : ref) (d : OsDirectory) (s s1 s2 : State)
    (g : ref) (l : list ref) :
  get_dir self s = (Ok d, s) -> _children d = None -> (self < next_ref s)%nat ->
  children self s = (Ok g, s1) ->
  py_list g s1 = (Ok l, s2) ->
  children self s2 = (Ok g, s2) /\ py_list g s2 = (Ok [], s2).
Proof.
  intros D C L Ch It.
  destruct (children_first self d s D C L) as (s1' & Ch' & N & G & D1).
  rewrite Ch in Ch'. injection Ch' as -> <-.
  apply (py_list_exhausts (d_filesystem d) self) in It; try lia; [|exact G].
  destruct It as [F O]. split.
  - apply (children_cached self (mkOsDirectory (d_url d) (d_filesystem d) (Some (next_ref s))));
      [|reflexivity].
    revert D1. unfold get_dir. rewrite O by lia.
    destruct (heap s1 !! self) as [[f|d'|d' c|g']|]; now intros [= <-].
  - now apply finished_yields_nothing.
Qed.

End ChildrenClaims.

Section ChildrenEvaluated.
Import Reference.

(** C3.  The cache is not a materialized snapshot.  On the driver of
    [/base], which holds [a.txt] and [b.txt]: the first read of [children]
    returns a generator, and iterating it yields two file entities; the
    second read, with no [markDirty] and no mutation between, returns the
    same object, and iterating it yields nothing.  After [markDirty] the
    next read returns a new generator, which lists the store again. *)
Theorem children_cache_is_one_shot :
  let run :=
    (g1 ← children 0%nat; l1 ← py_list g1;
     g2 ← children 0%nat; l2 ← py_list g2;
     markDirty 0%nat;;
     g3 ← children 0%nat; l3 ← py_list g3;
     mret (g1, l1, g2, l2, g3, l3)) Scenario.with_driver in
  fst run = Ok (1%nat, [2%nat; 3%nat], 1%nat, [], 4%nat, [5%nat; 6%nat]) /\
  heap (snd run) !! 2%nat = Some (OFile (OsFile_init (Some (to_url "/base/a.txt")) 0%nat "r")) /\
  heap (snd run) !! 3%nat = Some (OFile (OsFile_init (Some (to_url "/base/b.txt")) 0%nat "r")) /\
  heap (snd run) !! 1%nat = Some (OGen GenFinished).
Proof. vm_compute. repeat split. Qed.

End ChildrenEvaluated.

(** ** The change notifier *)

(** A [while True] loop is left by an exception only. *)
Lemma while_true_never_returns (body : tick -> W unit) (ticks : list tick) (s : WState) :
  fst (while (mret true) body ticks s) <> Returned.
Proof.
  revert s. induction ticks as [|t rest IH]; intros s; cbn.
  - discriminate.
  - destruct (body t s) as [[[]|e] s2]; cbn; [apply IH | discriminate].
Qed.

Lemma bind_Ok {S A B : Type} (c : ST S A) (k : A -> ST S B) (s s' : S) (a : A) :
  c s = (Ok a, s') -> (c ≫= k) s = k a s'.
Proof. intros E. unfold mbind, ST_bind. now rewrite E. Qed.

Lemma bind_Raise {S A B : Type} (c : ST S A) (k : A -> ST S B) (s s' : S) (e : exn) :
  c s = (Raise e, s') -> (c ≫= k) s = (Raise e, s').
Proof. intros E. unfold mbind, ST_bind. now rewrite E. Qed.

Lemma while_true_cons (body : tick -> W unit) (t : tick) (rest : list tick) (s : WState) :
  while (mret true) body (t :: rest) s =
    match body t s with
    | (Raise e, s2) => (Raised e, s2)
    | (Ok _, s2) => while (mret true) body rest s2
    end.
Proof. reflexivity. Qed.

Lemma time_sleep_bound (secs : Z) (hd : option (W unit)) (t : tick) (s : WState) :
  lv_time s = true ->
  0 <= secs <= max_sleep ->
  time_sleep secs hd t s =
    match hd with
    | Some h => (mapM (fun _ => h) (seq 0 (t_signals t));; blocked_for secs t) s
    | None => blocked_for secs t s
    end.
Proof.
  intros T R. unfold time_sleep, mbind at 1, ST_bind at 1. cbn [get_state]. rewrite T.
  assert (Hi : ((secs <? (- max_sleep)) || (max_sleep <? secs)) = false).
  { apply orb_false_iff. unfold max_sleep in *. split; apply Z.ltb_ge; lia. }
  assert (Lo : (secs <? 0) = false) by (apply Z.ltb_ge; lia).
  rewrite Hi, Lo. now destruct hd.
Qed.

(** What [time.sleep] refuses, it refuses before anything else happens. *)
Lemma time_sleep_refuses (secs : Z) (hd : option (W unit)) (t : tick) (s : WState) :
  lv_time s = true ->
  ~ 0 <= secs <= max_sleep ->
  exists e, time_sleep secs hd t s = (Raise e, s).
Proof.
  intros T R. unfold time_sleep, mbind at 1, ST_bind at 1. cbn [get_state]. rewrite T.
  destruct ((secs <? (- max_sleep)) || (max_sleep <? secs)) eqn:Hi; [cbn; eauto|].
  destruct (secs <? 0) eqn:Lo; [cbn; eauto|].
  exfalso. apply R. apply orb_false_iff in Hi. destruct Hi as [_ Hi].
  apply Z.ltb_ge in Hi, Lo. lia.
Qed.

Section WatchClaims.
Context `{Collaborators}.

(** C1.  [addWatch] does not return to its caller: on every host, for
    every entity, callback and interval, and however long the watcher is
    observed, the call either is still in its loop or has raised. *)
Theorem addWatch_never_returns (host : WatchHost) (watchFn : WatcherFn) (source : string)
    (isDir : bool) (pollingInterval : Z) (ticks : list tick) (s : WState) :
  fst (addWatch host watchFn source isDir pollingInterval ticks s) <> Returned.
Proof.
  unfold addWatch.
  repeat match goal with
         | |- context [if ?c then _ else _] =>
             match c with
             | String.eqb _ _ => destruct c
             | negb isDir => destruct c
             end
         end;
    match goal with
    | |- context [match ?c s with _ => _ end] => destruct (c s) as [[[]|e] s1]
    end;
    (discriminate || apply while_true_never_returns).
Qed.

Lemma mapM_quiet {A : Type} (f : A -> W unit) (l : list A) (s : WState)
    (inv : WState -> Prop) :
  inv s ->
  (forall a s0, inv s0 -> exists s1, f a s0 = (Ok tt, s1) /\ inv s1) ->
  exists r s', mapM f l s = (Ok r, s') /\ inv s'.
Proof.
  intros I F. revert s I. induction l as [|a l IH]; intros s I.
  - cbn. eauto.
  - change (mapM f (a :: l) s) with ((y ← f a; k ← mapM f l; mret (y :: k)) s).
    unfold mbind at 1, ST_bind at 1. destruct (F a s I) as (s1 & -> & I1).
    unfold mbind at 1, ST_bind at 1.
    destruct (IH s1 I1) as (r & s' & -> & I'). cbn. eauto.
Qed.

(** On a [posix] host the loop goes on for as long as it is observed,
    when the callback does not raise: the call is still blocked after any
    number of rounds. *)
Lemma posix_watch_blocks_forever (host : WatchHost) (watchFn : WatcherFn) (source : string)
    (isDir : bool) (pollingInterval : Z) (ticks : list tick) (s : WState) :
  host_name host = "posix" ->
  host_fcntl host = true -> host_dnotify host = true ->
  os_path_isdir (w_disk s) source = true ->
  (forall n p o, watchFn n p o = None) ->
  0 <= pollingInterval * 1000 <= max_sleep ->
  fst (addWatch host watchFn source isDir pollingInterval ticks s) = Blocked.
Proof.
  intros N Fc Dn Dir Q R. unfold addWatch. rewrite N. cbn [String.eqb Ascii.eqb Bool.eqb].
  assert (Ex : os_path_exists (w_disk s) source = true).
  { revert Dir. unfold os_path_isdir, os_path_exists.
    now destruct (w_disk s !! source) as [[]|]. }
  match goal with
  | |- context [match ?c s with _ => _ end] =>
      assert (S0 : exists s1, c s = (Ok tt, s1) /\ lv_time s1 = true)
  end.
  { unfold mbind, ST_bind, import_time, try_catch. cbn.
    destruct (host_SIGIO host); cbn; rewrite Ex, Fc, Dn, Dir; cbn; eauto. }
  destruct S0 as (s1 & -> & T). clear Ex Dir.
  revert s1 T. induction ticks as [|t rest IH]; intros s1 T; [reflexivity|].
  rewrite while_true_cons, (time_sleep_bound _ _ _ _ T R).
  destruct (host_SIGIO host); cbv beta iota.
  - destruct (mapM_quiet (fun _ : nat => handler watchFn source) (seq 0 (t_signals t)) s1
                (fun s0 => lv_time s0 = true) T) as (r & s2 & Hm & T2).
    { intros _ s0 T0. unfold handler, call. rewrite Q. eauto. }
    rewrite (bind_Ok _ _ _ _ _ Hm). cbn [blocked_for]. apply IH. exact T2.
  - cbn [blocked_for]. apply IH. exact T.
Qed.

(** In the [nt] loop a callback that raises an [Exception] is answered by
    a print, and the round ends normally. *)
Lemma nt_round_suppresses (watchFn : WatcherFn) (source : string) (t : tick) (s : WState)
    (records : list (Z * string)) :
  (forall n p o e, watchFn n p o = Some e -> is_Exception e = true) ->
  t_events t = Ok records ->
  exists s', nt_round watchFn source t s = (Ok tt, s').
Proof.
  intros Q E. unfold nt_round.
  erewrite bind_Ok; [|reflexivity].
  erewrite bind_Ok; [|unfold lift_result; rewrite E; reflexivity].
  match goal with
  | |- context [(mapM ?f records ≫= _) ?s0] =>
      destruct (mapM_quiet f records s0 (fun _ => True) I) as (r & s' & Hm & _);
        [|rewrite (bind_Ok _ _ _ _ _ Hm)]
  end.
  - intros [action filename] s0 _. unfold try_except, try_catch, mbind, ST_bind, lift_result.
    destruct (ACTIONS action) as [op|e] eqn:A.
    + unfold call. destruct (watchFn _ _ _) as [e|] eqn:C; [|eauto].
      rewrite (Q _ _ _ _ C). unfold wprint. eauto.
    + unfold ACTIONS in A.
      repeat match type of A with
             | (if ?c then _ else _) = _ => destruct c; [discriminate|]
             end.
      injection A as <-. cbn. unfold wprint. eauto.
  - cbn. eauto.
Qed.

(** With [time] bound, a round of the polling loop over a file sleeps
    for a thousand times the interval, where [time.sleep] accepts that. *)
Lemma poll_file_round_sleeps (watchFn : WatcherFn) (source : string) (pollingInterval : Z)
    (t : tick) (s s' : WState) (r : result unit) :
  lv_time s = true ->
  0 <= pollingInterval * 1000 <= max_sleep ->
  poll_file_round watchFn source pollingInterval t s = (r, s') ->
  w_slept s' = w_slept s + pollingInterval * 1000.
Proof.
  intros T R. unfold poll_file_round, mbind at 1, ST_bind at 1.
  rewrite (time_sleep_bound _ None t s T R).
  cbn [blocked_for]. unfold try_except, try_catch, mbind, ST_bind.
  unfold stat_mtime, mbind, ST_bind, lift_result, get_state, set_lastchange, call, wprint.
  cbn.
  repeat match goal with
         | |- context [match ?c with _ => _ end] =>
             match c with
             | os_stat_mtime _ _ => destruct c
             | watchFn _ _ _ => destruct c
             end
         | |- context [if ?c then _ else _] =>
             match c with
             | bool_decide _ => destruct c
             | is_Exception _ => destruct c
             end
         end; cbn; intros [= _ <-]; reflexivity.
Qed.

End WatchClaims.

Section WatchEvaluated.
Import Reference.

(** C6.  Not every loop shields itself from the callback.  Polling the
    directory [/base], where [c.txt] and then [d.txt] appear, with a
    callback that raises on its first call: the exception leaves
    [addWatch], nothing is printed, and the second creation is never
    notified, while a callback that does not raise is told of both.  The
    loop of the [nt] branch does what the claim says: the same failing
    callback is printed and the next record is still delivered. *)
Theorem callback_failure_ends_polling_watch :
  let polled := addWatch Scenario.polling_host Scenario.fails_once "/base" true 1
                  Scenario.dir_ticks (start Scenario.base_store) in
  let undisturbed := addWatch Scenario.polling_host Scenario.quiet "/base" true 1
                       Scenario.dir_ticks (start Scenario.base_store) in
  let queued := addWatch Scenario.windows_host Scenario.fails_once "/base" true 1
                  Scenario.event_ticks (start Scenario.base_store) in
  fst polled = Raised (UserException "boom") /\
  w_calls (snd polled) = [("/base", "CREATE")] /\
  w_out (snd polled) = [] /\
  fst undisturbed = Blocked /\
  w_calls (snd undisturbed) = [("/base", "CREATE"); ("/base", "CREATE")] /\
  fst queued = Blocked /\
  w_calls (snd queued) = [("/base/c.txt", "CREATE"); ("/base/c.txt", "UPDATE")] /\
  w_out (snd queued) = ["boom"].
Proof. vm_compute. repeat split. Qed.

(** C7.  Polling the file [/base/a.txt] with interval 1, the file being
    modified before the first sample: [addWatch] raises
    [UnboundLocalError] at its first [time.sleep], since no [import time]
    runs on this path, so nothing is sampled and the callback is never
    called.  The rounds of the loop themselves, started with [time] bound:
    one [UPDATE] for the one change and none for the unchanged round, and
    2000 seconds slept over two rounds, a thousand per unit of interval. *)
Theorem polling_file_watch_raises_at_once :
  let watched := addWatch Scenario.polling_host Scenario.quiet "/base/a.txt" false 1
                   Scenario.file_ticks (start Scenario.base_store) in
  let rounds := while (mret true) (poll_file_round Scenario.quiet "/base/a.txt" 1)
                  Scenario.file_ticks (mkWState Scenario.base_store 0 [] [] true 1 []) in
  fst watched = Raised (UnboundLocalError "time") /\
  w_calls (snd watched) = [] /\
  w_slept (snd watched) = 0 /\
  fst rounds = Blocked /\
  w_calls (snd rounds) = [("/base/a.txt", "UPDATE")] /\
  w_slept (snd rounds) = 2000.
Proof. vm_compute. repeat split. Qed.

End WatchEvaluated.

(** * Further properties *)

(** ** Opening, reading and closing file entities *)

(** With an encoding, the built-in [open] lets text modes through only. *)
Lemma check_open_args_text (m enc : string) :
  check_open_args m (Some enc) = Ok tt -> has_char "b" m = false.
Proof.
  unfold check_open_args.
  destruct (negb (all_in "axrwb+t" m && nodup_chars m)); [discriminate|].
  destruct (has_char "t" m && has_char "b" m); [discriminate|].
  destruct (1 <? _)%nat; [discriminate|].
  destruct (negb _); [discriminate|].
  destruct (has_char "b" m); [discriminate|reflexivity].
Qed.

(** What a successful [open] of an unopened entity leaves behind. *)
Lemma open_Ok_inv (self : ref) (f : OsFile) (s s1 : State) (mode : option string) (r : ref) :
  heap s !! self = Some (OFile f) -> _f f = None ->
  OsFile_open self mode s = (Ok r, s1) ->
  let m := match mode with Some m => m | None => _fileAccessMode f end in
  exists t path st pos,
    url f = Some (mkURL t (Some path)) /\ r = self /\
    check_open_args m (Some "utf-8") = Ok tt /\
    os_open (disk s) (now s) path m = Ok (st, pos) /\
    s1 = mkState
           (<[self := OFile (mkOsFile (url f) (filesystem f) true m (fileAccessMode f)
                               (Some (FStream (next_file s))))]> (heap s))
           (next_ref s)
           (<[next_file s := mkPyfile path false (has_char "r" m || has_char "+" m)
                               (has_char "w" m || has_char "a" m || has_char "x" m
                                || has_char "+" m)
                               (has_char "a" m) pos false]> (files s))
           (S (next_file s)) (close_fault s) (remove_fault s) st (now s) (stdout s) (stderr s).
Proof.
  intros E N. unfold OsFile_open, open_body, mbind, ST_bind.
  rewrite (get_file_at _ _ _ E), N.
  destruct (url f) as [[t [path|]]|] eqn:U; cbn; try discriminate.
  rewrite (assign_at _ _ _ _ E). cbn.
  unfold get_file at 1. cbn. rewrite lookup_insert_eq. cbn.
  destruct mode as [m|]; cbn.
  - unfold assign at 1, get_file at 1, put_file at 1, mbind, ST_bind. cbn.
    rewrite lookup_insert_eq. cbn. rewrite insert_insert_eq.
    unfold builtin_open. cbn.
    destruct (check_open_args m (Some "utf-8")) as [[]|e] eqn:C; [|discriminate].
    destruct (os_open (disk s) (now s) path m) as [[st pos]|e] eqn:O; [|discriminate].
    pose proof (check_open_args_text _ _ C) as B.
    unfold assign, get_file, put_file, mbind, ST_bind. cbn. rewrite lookup_insert_eq. cbn.
    intros [= <- <-]. exists t, path, st, pos. rewrite B, insert_insert_eq.
    do 4 (split; [reflexivity || assumption|]).
    unfold with_heap, set__f, set__fileAccessMode, set_isOpen. cbn. now rewrite U.
  - unfold builtin_open. cbn.
    destruct (check_open_args (_fileAccessMode f) (Some "utf-8")) as [[]|e] eqn:C;
      [|discriminate].
    destruct (os_open (disk s) (now s) path (_fileAccessMode f)) as [[st pos]|e] eqn:O;
      [|discriminate].
    pose proof (check_open_args_text _ _ C) as B.
    unfold assign, get_file, put_file, mbind, ST_bind. cbn. rewrite lookup_insert_eq. cbn.
    intros [= <- <-]. exists t, path, st, pos. rewrite B, insert_insert_eq.
    do 4 (split; [reflexivity || assumption|]).
    unfold with_heap, set__f, set__fileAccessMode, set_isOpen. cbn. now rewrite U.
Qed.

(** X1.  [open] on an entity that already holds an open stream on a
    regular file is a rewind: whatever mode is asked for, the entity keeps
    its stream, the stream is put at position 0, the remembered mode is
    not touched and no new file object is created. *)
Theorem open_again_rewinds (self : ref) (f : OsFile) (s : State) (h : nat) (pf : pyfile)
    (mode : option string) :
  heap s !! self = Some (OFile f) ->
  _f f = Some (FStream h) ->
  files s !! h = Some pf -> pf_closed pf = false ->
  os_path_isfile (disk s) (pf_path pf) = true ->
  OsFile_open self mode s = (Ok self, with_files s (<[h := set_pos pf 0]> (files s))).
Proof.
  intros E F P C R. unfold OsFile_open, open_body, mbind, ST_bind.
  rewrite (get_file_at _ _ _ E), F.
  unfold seek_body, mbind, ST_bind. rewrite (get_file_at _ _ _ E), F. cbn.
  unfold pf_seek, mbind, ST_bind, get_pyfile. rewrite P, C. cbn.
  unfold seekable. unfold os_path_isfile in R.
  destruct (disk s !! pf_path pf) as [[]|]; try discriminate R. reflexivity.
Qed.

(** On a stream that cannot be positioned (a pipe, a terminal), the
    rewind fails and [open] raises. *)
Lemma open_again_unseekable (self : ref) (f : OsFile) (s : State) (h : nat) (pf : pyfile)
    (mode : option string) :
  heap s !! self = Some (OFile f) ->
  _f f = Some (FStream h) ->
  files s !! h = Some pf -> pf_closed pf = false -> pf_binary pf = false ->
  seekable (disk s) (pf_path pf) = false ->
  OsFile_open self mode s = (Raise (OSError "underlying stream is not seekable"), s).
Proof.
  intros E F P C B R. unfold OsFile_open, open_body, mbind, ST_bind.
  rewrite (get_file_at _ _ _ E), F.
  unfold seek_body, mbind, ST_bind. rewrite (get_file_at _ _ _ E), F. cbn.
  unfold pf_seek, mbind, ST_bind, get_pyfile. rewrite P, C. cbn.
  now rewrite R, B.
Qed.

(** X2.  A failed [open] of an unopened entity leaves no stream behind:
    [_f] stays empty and neither the file objects nor the store change.
    When the entity has a concrete path the flag [isOpen] is nevertheless
    left set, since it is raised before the built-in [open] is tried; when
    it has none, the error is the null-location one and nothing changed. *)
Theorem failed_open_leaves_no_stream (self : ref) (f : OsFile) (s s' : State)
    (mode : option string) (e : exn) :
  heap s !! self = Some (OFile f) -> _f f = None ->
  OsFile_open self mode s = (Raise e, s') ->
  files s' = files s /\ disk s' = disk s /\
  exists f', heap s' !! self = Some (OFile f') /\ _f f' = None /\
    match url f with
    | Some (mkURL _ (Some _)) => isOpen f' = true
    | _ => e = PlainException "Null file location" /\ s' = s
    end.
Proof.
  intros E N. unfold OsFile_open, open_body, mbind, ST_bind.
  rewrite (get_file_at _ _ _ E), N.
  destruct (url f) as [[t [path|]]|] eqn:U; cbn;
    try (intros [= <- <-]; do 2 (split; [reflexivity|]); exists f; now repeat split).
  rewrite (assign_at _ _ _ _ E). cbn.
  unfold get_file at 1. cbn. rewrite lookup_insert_eq. cbn.
  destruct mode as [m|]; cbn.
  - unfold assign at 1, get_file at 1, put_file at 1, mbind, ST_bind. cbn.
    rewrite lookup_insert_eq. cbn. rewrite insert_insert_eq.
    destruct (builtin_open _ _ _ _) as [[h|e0] s2] eqn:B.
    + apply builtin_open_Ok in B. destruct B as (Hh & _).
      unfold assign, get_file, put_file, mbind, ST_bind. rewrite Hh. cbn.
      rewrite lookup_insert_eq. discriminate.
    + apply builtin_open_Raise in B. subst s2. intros [= <- <-]. cbn.
      do 2 (split; [reflexivity|]). eexists. rewrite lookup_insert_eq.
      split; [reflexivity|]. cbn. now split.
  - destruct (builtin_open _ _ _ _) as [[h|e0] s2] eqn:B.
    + apply builtin_open_Ok in B. destruct B as (Hh & _).
      unfold assign, get_file, put_file, mbind, ST_bind. rewrite Hh. cbn.
      rewrite lookup_insert_eq. discriminate.
    + apply builtin_open_Raise in B. subst s2. intros [= <- <-]. cbn.
      do 2 (split; [reflexivity|]). eexists. rewrite lookup_insert_eq.
      split; [reflexivity|]. cbn. now split.
Qed.

Section FileFurther.
Context `{Collaborators}.

(** X3.  Once [open] has succeeded on an entity, [write] cannot: every
    stream [open] creates is a text stream, and [write] always hands it
    [bytes].  Whatever the data and the encoding, [write] raises and the
    store stays as [open] left it. *)
Theorem write_after_open_raises (self : ref) (f : OsFile) (s s1 : State)
    (mode : option string) (r : ref) (data : pydata) (encoding : string) :
  heap s !! self = Some (OFile f) -> _f f = None ->
  OsFile_open self mode s = (Ok r, s1) ->
  exists e s2, OsFile_write self data encoding s1 = (Raise e, s2) /\ disk s2 = disk s1.
Proof.
  intros E N O. apply (open_Ok_inv self f s s1 mode r E N) in O.
  destruct O as (t & path & st & pos & U & -> & C & Os & ->).
  unfold OsFile_write, mbind at 1, ST_bind at 1, get_file at 1. cbn [heap].
  rewrite lookup_insert_eq. cbn [_f]. unfold mbind at 1, ST_bind at 1. cbn [mret ST_ret].
  unfold mbind at 1, ST_bind at 1.
  assert (W : forall b s0,
             heap s0 !! self = Some (OFile (mkOsFile (url f) (filesystem f) true
               match mode with Some m => m | None => _fileAccessMode f end
               (fileAccessMode f) (Some (FStream (next_file s))))) ->
             (exists pf, files s0 !! next_file s = Some pf /\ pf_binary pf = false) ->
             exists e s2,
               (get_file self ≫= fun f' =>
                  via_f (_f f') "write" (fun h => pf_write h (PyBytes b))) s0 = (Raise e, s2)
               /\ disk s2 = disk s0).
  { intros b s0 Hs (pf & Hp & Hb). unfold mbind, ST_bind. rewrite (get_file_at _ _ _ Hs).
    cbn. unfold pf_write, mbind, ST_bind, get_pyfile. rewrite Hp.
    destruct (pf_closed pf); [eauto|]. cbn.
    destruct (negb (pf_writable pf)); [unfold raise; eauto|].
    unfold write_bytes. rewrite Hb. unfold raise. eauto. }
  set (s1 := mkState _ _ _ _ _ _ _ _ _ _).
  assert (H1 : heap s1 !! self = Some (OFile (mkOsFile (url f) (filesystem f) true
               match mode with Some m => m | None => _fileAccessMode f end
               (fileAccessMode f) (Some (FStream (next_file s))))))
    by (subst s1; cbn; apply lookup_insert_eq).
  assert (H2 : exists pf, files s1 !! next_file s = Some pf /\ pf_binary pf = false)
    by (subst s1; cbn; eexists; rewrite lookup_insert_eq; split; reflexivity).
  destruct data as [b|txt|repr].
  - cbn. apply (W b s1 H1 H2).
  - unfold lift_result. destruct (str_encode encoding txt) as [b|e]; [|eauto].
    apply (W b s1 H1 H2).
  - unfold lift_result. destruct (str_encode encoding repr) as [b|e]; [|eauto].
    apply (W b s1 H1 H2).
Qed.

(** X4.  After a successful [open], [read] with an encoding cannot
    succeed either: the stream is a text stream, what it reads is already
    [str], and [str] has no [decode]. *)
Theorem read_with_encoding_after_open_raises (self : ref) (f : OsFile) (s s1 : State)
    (mode : option string) (r : ref) (numBytes : option Z) (encoding : string) :
  heap s !! self = Some (OFile f) -> _f f = None ->
  OsFile_open self mode s = (Ok r, s1) ->
  exists e s2, OsFile_read self numBytes (Some encoding) s1 = (Raise e, s2).
Proof.
  intros E N O. apply (open_Ok_inv self f s s1 mode r E N) in O.
  destruct O as (t & path & st & pos & U & -> & C & Os & ->).
  unfold OsFile_read, mbind at 1, ST_bind at 1, get_file at 1. cbn [heap].
  rewrite lookup_insert_eq. cbn [_f]. unfold mbind at 1, ST_bind at 1. cbn [mret ST_ret].
  unfold mbind at 1, ST_bind at 1, get_file at 1. cbn [heap]. rewrite lookup_insert_eq.
  cbn [_f via_f]. unfold mbind at 1, ST_bind at 1.
  unfold pf_read, mbind at 1, ST_bind at 1, get_pyfile. cbn [files].
  rewrite lookup_insert_eq. cbn [pf_closed]. unfold mbind at 1, ST_bind at 1. cbn [get_state].
  cbn [pf_readable pf_binary].
  destruct (negb _); [unfold raise; eauto|].
  unfold mbind, ST_bind. cbn. unfold raise. eauto.
Qed.


End FileFurther.

(** [close] on an entity that holds a stream, step by step. *)
Lemma close_stream_eq (self : ref) (f : OsFile) (s : State) (h : nat) :
  heap s !! self = Some (OFile f) -> _f f = Some (FStream h) ->
  let f0 := set_fileAccessMode (set_isOpen f false) "" in
  OsFile_close self s =
    match pf_close h (with_heap s (<[self := OFile f0]> (heap s))) with
    | (Ok _, s1) => (Ok tt, with_heap s1 (<[self := OFile (set__f f0 None)]> (heap s1)))
    | (Raise e, s1) => (Raise e, s1)
    end.
Proof.
  intros E F f0. unfold OsFile_close, mbind, ST_bind.
  rewrite (get_file_at _ _ _ E), F.
  rewrite (assign_at _ _ _ _ E). cbn.
  unfold assign at 1, get_file at 1, mbind, ST_bind. cbn.
  rewrite lookup_insert_eq. cbn. unfold get_file at 1. cbn.
  rewrite lookup_insert_eq. cbn. rewrite F. cbn. rewrite insert_insert_eq.
  fold f0.
  change (with_heap (with_heap s _) (<[self := OFile f0]> (heap s)))
    with (with_heap s (<[self := OFile f0]> (heap s))).
  destruct (pf_close_spec h (with_heap s (<[self := OFile f0]> (heap s))))
    as (s1 & P & Hh & _).
  rewrite P. destruct (pending_error _ h); [reflexivity|].
  assert (E1 : heap s1 !! self = Some (OFile f0))
    by (rewrite Hh; cbn; apply lookup_insert_eq).
  now rewrite (assign_at _ _ _ _ E1).
Qed.

(** X6.  [close] is idempotent: closing twice in a row does what closing
    once does, in every state and whatever the first close does (nothing
    to close, a clean close, or a close that raises). *)
Theorem close_idempotent (self : ref) (s : State) :
  (OsFile_close self;; OsFile_close self) s = OsFile_close self s.
Proof.
  destruct (OsFile_close self s) as [[[]|e] s1] eqn:C;
    [|now rewrite (bind_Raise _ _ _ _ _ C)].
  rewrite (bind_Ok _ _ _ _ _ C).
  destruct (heap s !! self) as [o|] eqn:E;
    [destruct o as [f|d|d c|g]|];
    try (revert C; unfold OsFile_close, mbind, ST_bind, get_file; rewrite E; discriminate).
  destruct (_f f) as [[h|r]|] eqn:F.
  - rewrite (close_stream_eq self f s h E F) in C. cbv zeta in C.
    destruct (pf_close h _) as [[[]|e] s2]; [|discriminate].
    injection C as <-.
    unfold OsFile_close, mbind, ST_bind, get_file. cbn.
    now rewrite lookup_insert_eq.
  - exfalso. revert C. unfold OsFile_close, mbind, ST_bind.
    rewrite (get_file_at _ _ _ E), F. rewrite (assign_at _ _ _ _ E). cbn.
    unfold assign at 1, get_file at 1, mbind, ST_bind. cbn.
    rewrite lookup_insert_eq. cbn. unfold get_file at 1. cbn.
    rewrite lookup_insert_eq. cbn. rewrite F. discriminate.
  - revert C. unfold OsFile_close, mbind, ST_bind.
    rewrite (get_file_at _ _ _ E), F. cbn. intros [= <-].
    now rewrite (get_file_at _ _ _ E), F.
Qed.

(** X7.  A clean [close] of an entity that holds an open stream: the
    stream is closed, the entity no longer holds it and is flagged not
    open, and the remembered mode [_fileAccessMode] is kept (it is the
    attribute [fileAccessMode], without underscore, that is blanked), so
    a later implicit [open] uses the same mode again. *)
Theorem close_releases_stream (self : ref) (f : OsFile) (s : State) (h : nat) (pf : pyfile) :
  heap s !! self = Some (OFile f) -> _f f = Some (FStream h) ->
  files s !! h = Some pf -> pf_closed pf = false ->
  close_fault s !! h = None ->
  exists s',
    OsFile_close self s = (Ok tt, s') /\
    heap s' !! self
      = Some (OFile (mkOsFile (url f) (filesystem f) false (_fileAccessMode f) "" None)) /\
    files s' !! h = Some (set_closed pf) /\
    disk s' = disk s.
Proof.
  intros E F P C N. rewrite (close_stream_eq self f s h E F). cbv zeta.
  unfold pf_close. cbn. rewrite P, C, N.
  eexists. split; [reflexivity|]. cbn. rewrite !lookup_insert_eq. now repeat split.
Qed.

(** X8.  A [close] that fails leaves the entity half closed: the error
    of the stream comes out, the entity is flagged not open but still
    holds the stream, which is closed.  A second [close] then returns
    normally and lets go of it. *)
Theorem failed_close_keeps_stream (self : ref) (f : OsFile) (s : State) (h : nat)
    (pf : pyfile) (e : exn) :
  heap s !! self = Some (OFile f) -> _f f = Some (FStream h) ->
  files s !! h = Some pf -> pf_closed pf = false ->
  close_fault s !! h = Some e ->
  exists s1 s2,
    OsFile_close self s = (Raise e, s1) /\
    heap s1 !! self
      = Some (OFile (mkOsFile (url f) (filesystem f) false (_fileAccessMode f) ""
                       (Some (FStream h)))) /\
    files s1 !! h = Some (set_closed pf) /\
    OsFile_close self s1 = (Ok tt, s2) /\
    heap s2 !! self
      = Some (OFile (mkOsFile (url f) (filesystem f) false (_fileAccessMode f) "" None)).
Proof.
  intros E F P C N. rewrite (close_stream_eq self f s h E F). cbv zeta.
  unfold pf_close at 1. cbn. rewrite P, C, N.
  set (f0 := set_fileAccessMode (set_isOpen f false) "").
  set (s1 := with_files _ _).
  assert (E1 : heap s1 !! self = Some (OFile f0)) by (subst s1; cbn; apply lookup_insert_eq).
  assert (F1 : _f f0 = Some (FStream h)) by (subst f0; cbn; exact F).
  assert (P1 : files s1 !! h = Some (set_closed pf))
    by (subst s1; cbn; apply lookup_insert_eq).
  exists s1. eexists. split; [reflexivity|].
  split; [rewrite E1; subst f0; unfold set_fileAccessMode, set_isOpen; cbn; now rewrite F|].
  split; [exact P1|].
  rewrite (close_stream_eq self f0 s1 h E1 F1). cbv zeta.
  unfold pf_close. cbn [files with_heap]. rewrite P1. cbn [pf_closed set_closed].
  split; [reflexivity|]. cbn. now rewrite lookup_insert_eq.
Qed.

(** X9.  After a [close] that returned normally, [flush] raises the
    not-open error and changes nothing. *)
Theorem flush_after_close_raises (self : ref) (f : OsFile) (s s1 : State) :
  heap s !! self = Some (OFile f) ->
  OsFile_close self s = (Ok tt, s1) ->
  OsFile_flush self s1 = (Raise (PlainException "File not open"), s1).
Proof.
  intros E C.
  destruct (_f f) as [[h|r]|] eqn:F.
  - rewrite (close_stream_eq self f s h E F) in C. cbv zeta in C.
    destruct (pf_close h _) as [[[]|e] s2]; [|discriminate].
    injection C as <-.
    unfold OsFile_flush, mbind, ST_bind, get_file. cbn.
    now rewrite lookup_insert_eq.
  - exfalso. revert C. unfold OsFile_close, mbind, ST_bind.
    rewrite (get_file_at _ _ _ E), F. rewrite (assign_at _ _ _ _ E). cbn.
    unfold assign at 1, get_file at 1, mbind, ST_bind. cbn.
    rewrite lookup_insert_eq. cbn. unfold get_file at 1. cbn.
    rewrite lookup_insert_eq. cbn. rewrite F. discriminate.
  - revert C. unfold OsFile_close, mbind, ST_bind.
    rewrite (get_file_at _ _ _ E), F. cbn. intros [= <-].
    unfold OsFile_flush, mbind, ST_bind. now rewrite (get_file_at _ _ _ E), F.
Qed.

Section FileFurtherEvaluated.
Import Reference.

(** [open('w')] on the entity of [/base/a.txt], open for reading at
    position 2: back at position 0, still the reading stream. *)
Lemma open_again_rewinds_witness :
  OsFile_open 1%nat (Some "w") Cases.moved
    = (Ok 1%nat,
       with_files Cases.moved (<[0%nat := set_pos (Cases.stream_at 2) 0]> (files Cases.moved))).
Proof.
  apply (open_again_rewinds 1%nat Cases.a_txt_open Cases.moved 0%nat (Cases.stream_at 2)
           (Some "w")).
  - vm_compute. reflexivity.
  - reflexivity.
  - vm_compute. reflexivity.
  - reflexivity.
  - vm_compute. reflexivity.
Defined.

(** [open('rb')] on the unopened entity of [/base/a.txt] fails and leaves
    it flagged open with no stream. *)
Lemma failed_open_leaves_no_stream_witness :
  let s' := snd (OsFile_open 1%nat (Some "rb") Scenario.with_file) in
  files s' = files Scenario.with_file /\ disk s' = disk Scenario.with_file /\
  exists f', heap s' !! 1%nat = Some (OFile f') /\ _f f' = None /\ isOpen f' = true.
Proof.
  apply (failed_open_leaves_no_stream 1%nat
           (OsFile_init (Some (to_url "/base/a.txt")) 0%nat "r") Scenario.with_file
           (snd (OsFile_open 1%nat (Some "rb") Scenario.with_file)) (Some "rb")
           (ValueError "binary mode doesn't take an encoding argument")).
  - vm_compute. reflexivity.
  - reflexivity.
  - vm_compute. reflexivity.
Defined.

(** [write(b"h")] after [open('w')] on the entity of [/base/a.txt]. *)
Lemma write_after_open_raises_witness :
  exists e s2,
    OsFile_write 1%nat (PyBytes [Byte.x68]) "utf-8"
      (snd (OsFile_open 1%nat (Some "w") Scenario.with_file)) = (Raise e, s2) /\
    disk s2 = disk (snd (OsFile_open 1%nat (Some "w") Scenario.with_file)).
Proof.
  apply (write_after_open_raises 1%nat
           (OsFile_init (Some (to_url "/base/a.txt")) 0%nat "r") Scenario.with_file
           (snd (OsFile_open 1%nat (Some "w") Scenario.with_file)) (Some "w") 1%nat).
  - vm_compute. reflexivity.
  - reflexivity.
  - vm_compute. reflexivity.
Defined.

(** [read(encoding='utf-8')] after [open('r')] on the same entity. *)
Lemma read_with_encoding_after_open_raises_witness :
  exists e s2,
    OsFile_read 1%nat None (Some "utf-8") Cases.opened = (Raise e, s2).
Proof.
  apply (read_with_encoding_after_open_raises 1%nat
           (OsFile_init (Some (to_url "/base/a.txt")) 0%nat "r") Scenario.with_file
           Cases.opened (Some "r") 1%nat).
  - vm_compute. reflexivity.
  - reflexivity.
  - vm_compute. reflexivity.
Defined.


(** [close()] on the entity of [/base/a.txt] open for reading. *)
Lemma close_releases_stream_witness :
  exists s',
    OsFile_close 1%nat Cases.opened = (Ok tt, s') /\
    heap s' !! 1%nat
      = Some (OFile (mkOsFile (Some (to_url "/base/a.txt")) 0%nat false "r" "" None)) /\
    files s' !! 0%nat = Some (set_closed (Cases.stream_at 0)) /\
    disk s' = disk Cases.opened.
Proof.
  apply (close_releases_stream 1%nat Cases.a_txt_open Cases.opened 0%nat (Cases.stream_at 0)).
  - vm_compute. reflexivity.
  - reflexivity.
  - vm_compute. reflexivity.
  - reflexivity.
  - vm_compute. reflexivity.
Defined.

(** [close()] twice on the entity whose stream reports an I/O error. *)
Lemma failed_close_keeps_stream_witness :
  exists s1 s2,
    OsFile_close 1%nat Scenario.with_failing_stream
      = (Raise (OSError "Input/output error"), s1) /\
    heap s1 !! 1%nat
      = Some (OFile (mkOsFile (Some (to_url "/base/a.txt")) 0%nat false "r" ""
                       (Some (FStream 0%nat)))) /\
    files s1 !! 0%nat = Some (set_closed (Cases.stream_at 0)) /\
    OsFile_close 1%nat s1 = (Ok tt, s2) /\
    heap s2 !! 1%nat
      = Some (OFile (mkOsFile (Some (to_url "/base/a.txt")) 0%nat false "r" "" None)).
Proof.
  apply (failed_close_keeps_stream 1%nat Cases.a_txt_open Scenario.with_failing_stream
           0%nat (Cases.stream_at 0) (OSError "Input/output error")).
  - vm_compute. reflexivity.
  - reflexivity.
  - vm_compute. reflexivity.
  - reflexivity.
  - vm_compute. reflexivity.
Defined.

(** [flush()] after [close()] on the entity open for reading. *)
Lemma flush_after_close_raises_witness :
  OsFile_flush 1%nat (snd (OsFile_close 1%nat Cases.opened))
    = (Raise (PlainException "File not open"), snd (OsFile_close 1%nat Cases.opened)).
Proof.
  apply (flush_after_close_raises 1%nat Cases.a_txt_open Cases.opened).
  - vm_compute. reflexivity.
  - vm_compute. reflexivity.
Defined.

End FileFurtherEvaluated.

(** ** Listing directories *)

Section ListingFurther.
Context `{Collaborators}.

Lemma item_url_of_dir (self : ref) (d : OsDirectory) (u : URL) (s : State) :
  get_dir self s = (Ok d, s) -> d_url d = Some u -> item_url self s = (Ok u, s).
Proof.
  unfold get_dir, item_url.
  destruct (heap s !! self) as [[f|d'|d' c|g]|]; try discriminate;
    intros [= <-] U; now rewrite U.
Qed.

Lemma keeps_disk_bind {A B} (c : M A) (k : A -> M B) :
  keeps_disk c -> (forall a, keeps_disk (k a)) -> keeps_disk (c ≫= k).
Proof.
  intros Hc Hk s r s'. unfold mbind, ST_bind.
  destruct (c s) as [[a|e] s1] eqn:C.
  - intros K. rewrite (Hk a _ _ _ K). apply (Hc _ _ _ C).
  - intros [= <- <-]. apply (Hc _ _ _ C).
Qed.

Lemma keeps_disk_get_dir (self : ref) : keeps_disk (get_dir self).
Proof.
  intros s r s'. unfold get_dir.
  destruct (heap s !! self) as [[f|d|d c|g]|]; now intros [= _ <-].
Qed.

Lemma keeps_disk_put_dir (self : ref) (d : OsDirectory) : keeps_disk (put_dir self d).
Proof.
  intros s r s'. unfold put_dir.
  destruct (heap s !! self) as [[f|d'|d' c|g]|]; now intros [= _ <-].
Qed.

Lemma children_keeps_disk (self : ref) (s s' : State) (r : result ref) :
  children self s = (r, s') -> disk s' = disk s.
Proof.
  revert s r s'. change (keeps_disk (children self)). unfold children.
  apply keeps_disk_bind; [apply keeps_disk_get_dir|]. intros d.
  apply keeps_disk_bind.
  - destruct (_children d).
    + now intros ? ? ? [= _ <-].
    + apply keeps_disk_bind; [now intros ? ? ? [= _ <-]|]. intros g.
      apply keeps_disk_bind; [apply keeps_disk_get_dir|]. intros d'.
      apply keeps_disk_put_dir.
  - intros _. apply keeps_disk_bind; [apply keeps_disk_get_dir|]. intros d''.
    destruct (_children d''); now intros ? ? ? [= _ <-].
Qed.

(** The first [next] of a generator whose directory cannot be listed
    raises the error of the listing and finishes the generator. *)
Lemma py_list_unlistable (g fs arg : ref) (u : URL) (e : exn) (s : State) :
  heap s !! g = Some (OGen (GenCreated fs arg)) -> arg <> g ->
  item_url arg s = (Ok u, s) ->
  os_listdir (disk s) (path_or (filePath u) ".") = Raise e ->
  py_list g s = (Raise e, with_heap s (<[g := OGen GenFinished]> (heap s))).
Proof.
  intros G A Iu Ls. unfold py_list, mbind at 1, ST_bind at 1. cbn [get_state].
  unfold rounds_left. rewrite G, Iu, Ls. rewrite iterate_S.
  unfold gen_next, mbind at 1, ST_bind at 1, get_gen. rewrite G.
  unfold mbind at 1, ST_bind at 1, put_gen at 1.
  unfold mbind at 1, ST_bind at 1. cbn [asUrl_any].
  assert (Iu2 : item_url arg (with_heap s (<[g := OGen GenFinished]> (heap s)))
                = (Ok u, with_heap s (<[g := OGen GenFinished]> (heap s)))).
  { revert Iu. unfold item_url. cbn. rewrite lookup_insert_ne by congruence.
    destruct (heap s !! arg) as [[f|d|d c|g']|];
      try destruct (url f); try destruct (d_url d); now intros [= <-]. }
  rewrite Iu2. unfold mbind at 1, ST_bind at 1. cbn [get_state].
  unfold mbind at 1, ST_bind at 1, lift_result at 1. cbn [disk with_heap].
  now rewrite Ls.
Qed.

(** X10.  A listing that fails is not retried.  For a directory read for
    the first time whose location cannot be listed: reading [children]
    succeeds all the same and touches nothing in the store (the listing
    is lazy); iterating the result raises the error of the listing; and
    from then on, reading [children] returns the same object and
    iterating it yields nothing, with no error. *)
Theorem failed_listing_is_swallowed (self : ref) (d : OsDirectory) (u : URL) (e : exn)
    (s : State) :
  get_dir self s = (Ok d, s) -> _children d = None -> (self < next_ref s)%nat ->
  d_url d = Some u ->
  os_listdir (disk s) (path_or (filePath u) ".") = Raise e ->
  exists g s1 s2,
    children self s = (Ok g, s1) /\ disk s1 = disk s /\
    py_list g s1 = (Raise e, s2) /\
    children self s2 = (Ok g, s2) /\
    py_list g s2 = (Ok [], s2).
Proof.
  intros D C L U Ls.
  destruct (children_first self d s D C L) as (s1 & Ch & N & G & D1).
  pose proof (children_keeps_disk _ _ _ _ Ch) as Dk.
  exists (next_ref s), s1, (with_heap s1 (<[next_ref s := OGen GenFinished]> (heap s1))).
  split; [exact Ch|]. split; [exact Dk|].
  assert (Iu : item_url self s1 = (Ok u, s1)) by (apply (item_url_of_dir _ _ _ _ D1); exact U).
  split; [apply (py_list_unlistable _ (d_filesystem d) self u); (trivial || lia || now rewrite Dk)|].
  split.
  - apply (children_cached self (mkOsDirectory (d_url d) (d_filesystem d) (Some (next_ref s))));
      [|reflexivity].
    revert D1. unfold get_dir. cbn. rewrite lookup_insert_ne by lia.
    destruct (heap s1 !! self) as [[f|d'|d' c|g']|]; now intros [= <-].
  - apply finished_yields_nothing. cbn. apply lookup_insert_eq.
Qed.

(** Resolving what exists allocates the entity [resolved] describes. *)
Lemma getFsItem_exists (fs : ref) (u : URL) (s : State) :
  os_path_exists (disk s) (path_or (filePath u) ".") = true ->
  _getFsItem fs (UUrl u) s = alloc (resolved fs (disk s) u) s.
Proof.
  intros Ex. unfold _getFsItem, resolved, mbind, ST_bind. cbn.
  destruct (os_path_isdir _ _); [reflexivity|]. now rewrite Ex.
Qed.

(** Listing through a generator not yet started is iterating it as
    suspended before the first of the names. *)
Lemma py_list_created (g fs arg : ref) (u : URL) (names : list string) (s : State) :
  heap s !! g = Some (OGen (GenCreated fs arg)) -> arg <> g ->
  item_url arg s = (Ok u, s) ->
  os_listdir (disk s) (path_or (filePath u) ".") = Ok names ->
  py_list g s
    = iterate (S (length names)) g
        (with_heap s (<[g := OGen (GenSuspended fs u names)]> (heap s))).
Proof.
  intros G A Iu Ls. unfold py_list. rewrite (bind_Ok get_state _ s s s eq_refl).
  unfold rounds_left. rewrite G, Iu, Ls.
  rewrite !iterate_S, (gen_next_created g fs arg u names s G A Iu Ls).
  rewrite (gen_next_suspended g fs u names) by apply lookup_insert_eq.
  replace (gen_round g fs u names
             (with_heap s (<[g := OGen (GenSuspended fs u names)]> (heap s))))
    with (gen_round g fs u names s); [reflexivity|].
  destruct names as [|c rest].
  - rewrite !gen_round_nil. cbn. now rewrite insert_insert_eq.
  - rewrite !gen_round_cons. cbn [heap with_heap]. now rewrite insert_insert_eq.
Qed.

(** Iterating a suspended generator whose names all exist: one new
    entity for each name, in order. *)
Lemma iterate_lists (names : list string) :
  forall (fs : ref) (u : URL) (g : ref) (s : State),
    heap s !! g = Some (OGen (GenSuspended fs u names)) ->
    (g < next_ref s)%nat ->
    Forall (fun c => os_path_exists (disk s) (path_or (filePath (url_child u c)) ".") = true)
      names ->
    exists s',
      iterate (S (length names)) g s = (Ok (seq (next_ref s) (length names)), s') /\
      disk s' = disk s /\
      (forall (i : nat) c, names !! i = Some c ->
         heap s' !! (next_ref s + i)%nat = Some (resolved fs (disk s) (url_child u c))) /\
      (forall r : ref, (r < next_ref s)%nat -> r <> g -> heap s' !! r = heap s !! r).
Proof.
  induction names as [|c rest IH]; intros fs u g s G L Ex;
    rewrite iterate_S, (gen_next_suspended _ _ _ _ _ G).
  - rewrite gen_round_nil. eexists. split; [reflexivity|]. cbn.
    split; [reflexivity|]. split; [intros i c; discriminate|].
    intros r _ N. now apply lookup_insert_ne.
  - rewrite gen_round_cons. inversion Ex as [|? ? Ec Er]; subst.
    rewrite getFsItem_exists by exact Ec. cbn [alloc disk with_heap heap next_ref].
    set (s1 := with_heap _ _).
    destruct (IH fs u g s1) as (s' & It & Dk & Hi & Ho).
    + subst s1. cbn. apply lookup_insert_eq.
    + subst s1. cbn. lia.
    + subst s1. cbn. exact Er.
    + cbn [length]. rewrite It. subst s1. cbn in *.
      eexists. split; [reflexivity|]. split; [exact Dk|]. split.
      * intros [|i] c' Hc; cbn in Hc.
        -- injection Hc as <-. rewrite Nat.add_0_r, Ho by lia.
           rewrite lookup_insert_ne by lia. apply lookup_insert_eq.
        -- rewrite <- (Hi i c' Hc). f_equal. lia.
      * intros r Lr Nr. rewrite Ho by lia.
        rewrite lookup_insert_ne by congruence.
        rewrite lookup_insert_ne by lia. now apply lookup_insert_ne.
Qed.

(** X11.  What a first listing yields.  For a directory read for the
    first time, whose location lists as [names] and whose names all
    resolve to something that exists: iterating [children] yields one new
    entity for each name, in the order of the listing, each at the
    location [url.child(name)], a directory entity where the store holds a
    directory and a file entity otherwise; the store is not changed. *)
Theorem listing_yields_typed_children (self : ref) (d : OsDirectory) (u : URL)
    (names : list string) (s : State) :
  get_dir self s = (Ok d, s) -> _children d = None -> (self < next_ref s)%nat ->
  d_url d = Some u ->
  os_listdir (disk s) (path_or (filePath u) ".") = Ok names ->
  Forall (fun c => os_path_exists (disk s) (path_or (filePath (url_child u c)) ".") = true)
    names ->
  exists g s1 s2,
    children self s = (Ok g, s1) /\
    py_list g s1 = (Ok (seq (S (next_ref s)) (length names)), s2) /\
    disk s2 = disk s /\
    (forall (i : nat) c, names !! i = Some c ->
       heap s2 !! (S (next_ref s) + i)%nat
         = Some (resolved (d_filesystem d) (disk s) (url_child u c))).
Proof.
  intros D C L U Ls Ex.
  destruct (children_first self d s D C L) as (s1 & Ch & N & G & D1).
  pose proof (children_keeps_disk _ _ _ _ Ch) as Dk.
  assert (Iu : item_url self s1 = (Ok u, s1)) by (apply (item_url_of_dir _ _ _ _ D1); exact U).
  assert (A : self <> next_ref s) by lia.
  rewrite <- Dk in Ls.
  rewrite <- Dk in Ex.
  destruct (iterate_lists names (d_filesystem d) u (next_ref s)
              (with_heap s1 (<[next_ref s := OGen (GenSuspended (d_filesystem d) u names)]>
                               (heap s1))))
    as (s2 & It & Dk2 & Hi & _).
  { cbn. apply lookup_insert_eq. }
  { cbn. lia. }
  { exact Ex. }
  exists (next_ref s), s1, s2. split; [exact Ch|].
  rewrite (py_list_created _ (d_filesystem d) self u names s1 G A Iu Ls).
  cbn in It, Dk2, Hi. rewrite N in It, Hi. rewrite Dk in Dk2, Hi.
  split; [exact It|]. split; [exact Dk2|]. exact Hi.
Qed.

(** X12.  [markDirty] drops the cache for good: whatever the directory
    had cached, the read of [children] after [markDirty] returns a
    generator created then and not yet started, so that the store is
    listed again when it is iterated. *)
Theorem markDirty_forces_new_listing (self : ref) (d : OsDirectory) (s : State) :
  get_dir self s = (Ok d, s) -> (self < next_ref s)%nat ->
  exists s',
    (markDirty self;; children self) s = (Ok (next_ref s), s') /\
    heap s' !! next_ref s = Some (OGen (GenCreated (d_filesystem d) self)) /\
    get_dir self s'
      = (Ok (mkOsDirectory (d_url d) (d_filesystem d) (Some (next_ref s))), s') /\
    disk s' = disk s.
Proof.
  intros D L.
  assert (M : exists s0, markDirty self s = (Ok tt, s0) /\ next_ref s0 = next_ref s /\
                disk s0 = disk s /\
                get_dir self s0 = (Ok (mkOsDirectory (d_url d) (d_filesystem d) None), s0)).
  { revert D. unfold markDirty, mbind, ST_bind, get_dir, put_dir.
    destruct (heap s !! self) as [[f|d'|d' c|g]|] eqn:E; try discriminate; intros [= <-];
      cbn; rewrite E; eexists; (split; [reflexivity|]); cbn; rewrite lookup_insert_eq;
      repeat split. }
  destruct M as (s0 & Md & N0 & Dk0 & D0).
  destruct (children_first self _ s0 D0 eq_refl) as (s1 & Ch & N & G & D1); [lia|].
  exists s1. rewrite (bind_Ok _ _ _ _ _ Md), Ch, <- N0. cbn in *.
  repeat split; trivial.
  rewrite <- Dk0. now apply (children_keeps_disk _ _ _ _ Ch).
Qed.

End ListingFurther.

(** ** Deleting *)

(** Removal of a list of entries that the system does not refuse. *)
Lemma remove_all_ok (faults : gmap string exn) (keys : list string) :
  forall st : store,
    (forall k, k ∈ keys -> faults !! k = None) ->
    exists st',
      remove_all st faults keys = (Ok tt, st') /\
      (forall k, k ∈ keys -> st' !! k = None) /\
      (forall k, k ∉ keys -> st' !! k = st !! k).
Proof.
  induction keys as [|k0 keys IH]; intros st Hf; cbn.
  - exists st. split; [reflexivity|]. split; [intros k Hk; inversion Hk|reflexivity].
  - rewrite (Hf k0) by (apply elem_of_cons; now left).
    destruct (IH (delete k0 st)) as (st' & R & Hin & Hout).
    { intros k Hk. apply Hf. apply elem_of_cons. now right. }
    exists st'. split; [exact R|]. split.
    + intros k Hk. destruct (decide (k ∈ keys)) as [Hi|Hn]; [now apply Hin|].
      rewrite Hout by exact Hn. apply elem_of_cons in Hk as [->|Hk]; [|contradiction].
      apply lookup_delete_eq.
    + intros k Hk. apply not_elem_of_cons in Hk as [Hne Hk].
      rewrite Hout by exact Hk. now apply lookup_delete_ne.
Qed.

(** [shutil.rmtree] on a directory nothing of which is refused: the
    directory and all that is under it are gone, the rest stays. *)
Lemma rmtree_ok (st : store) (faults : gmap string exn) (p : string) (t : Z) :
  st !! p = Some (NDir t) ->
  (forall k, under p k = true -> faults !! k = None) ->
  exists st',
    shutil_rmtree st faults p = (Ok tt, st') /\
    (forall k, under p k = true -> st' !! k = None) /\
    (forall k, under p k = false -> st' !! k = st !! k).
Proof.
  intros D Hf. unfold shutil_rmtree. rewrite D.
  destruct (remove_all_ok faults
              (filter (fun k => under p k = true) (fst <$> map_to_list st)) st)
    as (st' & R & Hin & Hout).
  - intros k Hk. apply list_elem_of_filter in Hk as [U _]. now apply Hf.
  - exists st'. split; [exact R|]. split.
    + intros k U. destruct (st !! k) as [nd|] eqn:E.
      * apply Hin. apply list_elem_of_filter. split; [exact U|].
        apply list_elem_of_fmap. exists (k, nd). split; [reflexivity|].
        now apply elem_of_map_to_list.
      * rewrite Hout; [exact E|]. intros Hk.
        apply list_elem_of_filter in Hk as [_ Hk].
        apply list_elem_of_fmap in Hk as ([k' nd] & -> & Hk).
        apply elem_of_map_to_list in Hk. cbn in E. congruence.
    + intros k U. apply Hout. intros Hk.
      apply list_elem_of_filter in Hk as [U' _]. congruence.
Qed.

Section DeleteFurther.
Context `{Collaborators}.
Variable item_parent : ref -> M ref.

(** X13.  Deleting a file entity whose path holds something that is not
    a directory and that the system lets go, whatever [parent] does to
    resolve the parent, as long as it returns a directory entity and
    leaves the store alone: the entry leaves the store and every other
    entry stays; the entity that [parent] returned is the one marked
    dirty, it has no cached children afterwards, and every other object,
    the cached listing of any other directory entity included, is as
    [parent] left it. *)
Theorem delete_file_removes_entry (self fsItem p : ref) (u : URL) (nd : node)
    (d : OsDirectory) (s s1 : State) :
  is_OsDirectory s fsItem = false ->
  item_url fsItem s = (Ok u, s) ->
  disk s !! fsId u = Some nd -> (forall t, nd <> NDir t) ->
  remove_fault s !! fsId u = None ->
  let s0 := with_disk s (delete (fsId u) (disk s)) in
  item_parent fsItem s0 = (Ok p, s1) ->
  disk s1 = disk s0 ->
  get_dir p s1 = (Ok d, s1) ->
  exists s',
    _delete item_parent self fsItem s = (Ok tt, s') /\
    os_path_exists (disk s') (fsId u) = false /\
    (forall k, k <> fsId u -> disk s' !! k = disk s !! k) /\
    get_dir p s' = (Ok (mkOsDirectory (d_url d) (d_filesystem d) None), s') /\
    (forall r : ref, r <> p -> heap s' !! r = heap s1 !! r).
Proof.
  intros I U D N F s0 P K G.
  unfold _delete. rewrite (bind_Ok get_state _ s s s eq_refl), I.
  assert (R : (u0 ← item_url fsItem; on_disk os_remove (fsId u0)) s = (Ok tt, s0)).
  { rewrite (bind_Ok _ _ _ _ _ U). unfold on_disk, os_remove. rewrite D, F.
    destruct nd; try reflexivity. now contradiction (N mtime). }
  rewrite (bind_Ok _ _ _ _ _ R), (bind_Ok _ _ _ _ _ P).
  unfold markDirty. rewrite (bind_Ok _ _ _ _ _ G).
  revert G. unfold get_dir, put_dir.
  destruct (heap s1 !! p) as [[f|d'|d' c|g]|] eqn:E; try discriminate; intros [= <-];
    eexists; (split; [reflexivity|]); cbn; rewrite K; subst s0; cbn;
    (split; [unfold os_path_exists; now rewrite lookup_delete_eq|]);
    (split; [intros k Hk; now apply lookup_delete_ne|]);
    rewrite lookup_insert_eq; (split; [reflexivity|]);
    intros r Hr; now apply lookup_insert_ne.
Qed.

(** X14.  Deleting a directory entity whose path holds a directory
    nothing under which the system refuses to remove, whatever [parent]
    does to resolve the parent, as long as it returns a directory entity
    and leaves the store alone: the directory and every entry under it
    leave the store and every entry elsewhere stays; the entity that
    [parent] returned is the one marked dirty, it has no cached children
    afterwards, and every other object is as [parent] left it. *)
Theorem delete_directory_removes_tree (self fsItem p : ref) (u : URL) (t : Z)
    (d : OsDirectory) (s s1 : State) :
  is_OsDirectory s fsItem = true ->
  item_url fsItem s = (Ok u, s) ->
  disk s !! fsId u = Some (NDir t) ->
  (forall k, under (fsId u) k = true -> remove_fault s !! k = None) ->
  let s0 := with_disk s (snd (shutil_rmtree (disk s) (remove_fault s) (fsId u))) in
  item_parent fsItem s0 = (Ok p, s1) ->
  disk s1 = disk s0 ->
  get_dir p s1 = (Ok d, s1) ->
  exists s',
    _delete item_parent self fsItem s = (Ok tt, s') /\
    (forall k, under (fsId u) k = true -> disk s' !! k = None) /\
    (forall k, under (fsId u) k = false -> disk s' !! k = disk s !! k) /\
    get_dir p s' = (Ok (mkOsDirectory (d_url d) (d_filesystem d) None), s') /\
    (forall r : ref, r <> p -> heap s' !! r = heap s1 !! r).
Proof.
  intros I U D F s0 P K G.
  destruct (rmtree_ok (disk s) (remove_fault s) (fsId u) t D F) as (st' & Rm & Hin & Hout).
  assert (S0 : s0 = with_disk s st') by (subst s0; now rewrite Rm).
  unfold _delete. rewrite (bind_Ok get_state _ s s s eq_refl), I.
  assert (R : (u0 ← item_url fsItem; on_disk shutil_rmtree (fsId u0)) s = (Ok tt, s0)).
  { rewrite (bind_Ok _ _ _ _ _ U), S0. unfold on_disk. now rewrite Rm. }
  rewrite (bind_Ok _ _ _ _ _ R), (bind_Ok _ _ _ _ _ P).
  unfold markDirty. rewrite (bind_Ok _ _ _ _ _ G).
  revert G. unfold get_dir, put_dir.
  destruct (heap s1 !! p) as [[f|d'|d' c|g]|] eqn:E; try discriminate; intros [= <-];
    eexists; (split; [reflexivity|]); cbn; rewrite K, S0; cbn;
    (split; [exact Hin|]); (split; [exact Hout|]);
    rewrite lookup_insert_eq; (split; [reflexivity|]);
    intros r Hr; now apply lookup_insert_ne.
Qed.

End DeleteFurther.

(** ** The loops of the change notifier *)

Section WatchFurther.
Context `{Collaborators}.

(** One change record in the [nt] loop, with a callback that does not
    raise: a call when the action code is known, a printed line when it is
    not. *)
Lemma nt_record_quiet (watchFn : WatcherFn) (source : string) (action : Z)
    (filename : string) (s : WState) :
  (forall n p o, watchFn n p o = None) ->
  exists s',
    try_except
      (op ← lift_result (ACTIONS action); call watchFn (os_path_join source filename) op)
      (fun e => wprint (exn_str e)) s = (Ok tt, s') /\
    w_calls s' = (w_calls s ++ notified source [(action, filename)])%list /\
    w_out s' = (w_out s ++ unknown_codes [(action, filename)])%list.
Proof.
  intros Q. unfold try_except, try_catch, mbind, ST_bind, lift_result, notified,
    unknown_codes. cbn.
  destruct (ACTIONS action) as [op|e] eqn:A.
  - unfold call. rewrite Q. eexists. split; [reflexivity|]. cbn.
    now rewrite app_nil_r.
  - assert (is_Exception e = true) as ->.
    { unfold ACTIONS in A.
      repeat match type of A with
             | (if ?c then _ else _) = _ => destruct c; [discriminate|]
             end.
      now injection A as <-. }
    unfold wprint. eexists. split; [reflexivity|]. cbn. now rewrite app_nil_r.
Qed.

(** X15.  One round of the [nt] loop with a callback that does not
    raise: the records of the batch are handed over in order, one call for
    each record whose action code is known, with the joined path and the
    operation of the table [ACTIONS] (4, a rename from elsewhere, is a
    CREATE); a record with an unknown code gives no call, its [KeyError]
    is printed, and the records after it are still delivered. *)
Theorem nt_round_delivers_in_order (watchFn : WatcherFn) (source : string) (t : tick)
    (records : list (Z * string)) (s : WState) :
  (forall n p o, watchFn n p o = None) ->
  t_events t = Ok records ->
  exists s',
    nt_round watchFn source t s = (Ok tt, s') /\
    w_calls s' = (w_calls s ++ notified source records)%list /\
    w_out s' = (w_out s ++ unknown_codes records)%list.
Proof.
  intros Q E. unfold nt_round.
  erewrite bind_Ok; [|reflexivity].
  erewrite bind_Ok; [|unfold lift_result; rewrite E; reflexivity].
  match goal with
  | |- context [(mapM ?f records ≫= _) ?s0] =>
      assert (Hm : forall l s1, exists r s',
                 mapM f l s1 = (Ok r, s') /\
                 w_calls s' = (w_calls s1 ++ notified source l)%list /\
                 w_out s' = (w_out s1 ++ unknown_codes l)%list);
        [|destruct (Hm records s0) as (r & s' & M & Hc & Ho);
          rewrite (bind_Ok _ _ _ _ _ M)]
  end.
  - induction l as [|[action filename] l IH]; intros s1.
    + cbn. eexists. eexists. split; [reflexivity|]. now rewrite !app_nil_r.
    + match goal with
      | |- context [mapM ?f (?a :: l) s1] =>
          change (mapM f (a :: l) s1) with ((y ← f a; k ← mapM f l; mret (y :: k)) s1)
      end.
      cbv beta iota.
      destruct (nt_record_quiet watchFn source action filename s1 Q) as (s2 & R & Hc & Ho).
      rewrite (bind_Ok _ _ _ _ _ R).
      destruct (IH s2) as (r & s' & M & Hc' & Ho').
      rewrite (bind_Ok _ _ _ _ _ M). eexists. eexists. split; [reflexivity|].
      rewrite Hc', Hc, Ho', Ho, <- !app_assoc.
      change ((action, filename) :: l) with ([(action, filename)] ++ l)%list.
      unfold notified, unknown_codes. rewrite !omap_app. split; reflexivity.
  - eexists. split; [reflexivity|]. cbn in Hc, Ho. now split.
Qed.

(** X16.  On an [nt] host, once the watch is set up, no [Exception] of
    the callback ends it: as long as [ReadDirectoryChangesW] hands back
    batches, the call is still in its loop, however often the callback
    raises. *)
Theorem nt_watch_survives_callback (host : WatchHost) (watchFn : WatcherFn)
    (source : string) (isDir : bool) (pollingInterval : Z) (ticks : list tick) (s : WState) :
  host_name host = "nt" -> host_win32 host = true ->
  os_path_exists (w_disk s) source = true ->
  (forall n p o e, watchFn n p o = Some e -> is_Exception e = true) ->
  Forall (fun t => exists records, t_events t = Ok records) ticks ->
  fst (addWatch host watchFn source isDir pollingInterval ticks s) = Blocked.
Proof.
  intros N Wn Ex Q Ev. unfold addWatch. rewrite N. cbn [String.eqb Ascii.eqb Bool.eqb].
  unfold mbind, ST_bind. rewrite Wn. cbn. rewrite Ex. cbn.
  clear Ex. revert s. induction Ev as [|t rest [records E] _ IH]; intros s; [reflexivity|].
  rewrite while_true_cons.
  destruct (nt_round_suppresses watchFn source t s records Q E) as (s' & ->).
  apply IH.
Qed.





End WatchFurther.

(** ** Polling a directory *)





Section PollingWatch.
Context `{Collaborators}.



End PollingWatch.

(** ** [_isRootPath] and [read] *)

Lemma isRootPath_shape (path : string) :
  _isRootPath path =
    match path with
    | String a rest =>
        Ascii.eqb a "/" || match rest with
                           | String b _ => Ascii.eqb b ":"
                           | EmptyString => false
                           end
    | EmptyString => false
    end.
Proof.
  assert (B : forall a c : ascii,
             bool_decide (Some a = Some c) = Ascii.eqb a c).
  { intros a c. destruct (Ascii.eqb a c) eqn:E.
    - apply Ascii.eqb_eq in E as ->. now apply bool_decide_eq_true_2.
    - apply Ascii.eqb_neq in E. apply bool_decide_eq_false_2. congruence. }
  destruct path as [|a [|b r]]; unfold _isRootPath;
    cbn [String.eqb String.get String.length negb andb Nat.ltb Nat.leb];
    rewrite ?B; try reflexivity;
    repeat match goal with
           | |- context [Ascii.eqb ?x ?y] => destruct (Ascii.eqb x y)
           end; reflexivity.
Qed.

(** X23.  A path that counts as a root path still does after anything is
    appended to it: what decides is the first character, or the second,
    and these stay. *)
Theorem isRootPath_app (path more : string) :
  _isRootPath path = true -> _isRootPath (path ++ more) = true.
Proof.
  rewrite !isRootPath_shape. destruct path as [|a [|b r]].
  - discriminate.
  - change (String a "" ++ more) with (String a more).
    rewrite orb_false_r. intros E. now rewrite E.
  - change (String a (String b r) ++ more) with (String a (String b (r ++ more))).
    trivial.
Qed.

Lemma isRootPath_app_witness :
  _isRootPath "c:" = true /\ _isRootPath ("c:" ++ "\Users") = true.
Proof.
  split; [reflexivity|]. apply (isRootPath_app "c:" "\Users"). reflexivity.
Defined.

Lemma split_from_not_nil (sep : string) (s : string) :
  forall (skip : nat) (cur : string), split_from sep skip cur s <> [].
Proof.
  induction s as [|c s IH]; intros skip cur; cbn; [discriminate|].
  destruct skip; [|apply IH].
  destruct (startswith sep (String c s)); [discriminate|apply IH].
Qed.

Section ReadFurther.
Variable pf : Platform.
Variable glob_glob : store -> string -> list string.

Lemma read_levels_None (loc : string) (levels : list string) :
  forall (cur : string) (s : State),
    exists out,
      read_levels pf glob_glob loc levels cur s
        = (Ok None,
           mkState (heap s) (next_ref s) (files s) (next_file s) (close_fault s)
             (remove_fault s) (disk s) (now s) (stdout s ++ out) (stderr s)).
Proof.
  induction levels as [|level rest IH]; intros cur s.
  - exists []. cbn. rewrite app_nil_r. now destruct s.
  - cbn [read_levels]. rewrite (bind_Ok get_state _ s s s eq_refl).
    destruct (os_path_isdir (disk s) cur); [apply IH|].
    destruct (os_path_isfile (disk s) cur).
    + exists []. cbn. rewrite app_nil_r. now destruct s.
    + destruct (negb _).
      * erewrite bind_Ok; [|reflexivity].
        match goal with |- context [read_levels _ _ _ _ _ ?s1] =>
          destruct (IH cur s1) as [out ->] end.
        cbn. rewrite <- app_assoc. eauto.
      * erewrite bind_Ok; [|reflexivity]. apply IH.
Qed.

(** X24.  [read] reads nothing: with a non-empty path separator, whatever
    the location and the flags, it returns [None], and all it may do to
    the state is print lines; the heap, the file objects and the store are
    as before. *)
Theorem read_returns_None (self : ref) (locationString : string)
    (justOne recursive printErrors : bool) (s : State) :
  os_sep pf <> "" ->
  exists out,
    OsFs_read pf glob_glob self locationString justOne recursive printErrors s
      = (Ok None,
         mkState (heap s) (next_ref s) (files s) (next_file s) (close_fault s)
           (remove_fault s) (disk s) (now s) (stdout s ++ out) (stderr s)).
Proof.
  intros Sep.
  assert (Same : exists out : list string,
            (Ok (@None pydata), s)
            = (Ok None,
               mkState (heap s) (next_ref s) (files s) (next_file s) (close_fault s)
                 (remove_fault s) (disk s) (now s) (stdout s ++ out) (stderr s)))
    by (exists []; rewrite app_nil_r; now destruct s).
  assert (Sp : forall l sep, sep <> "" ->
             exists first levels, str_split l sep = Ok (first :: levels)).
  { intros l sep Hs. unfold str_split.
    destruct (String.eqb_spec sep ""); [contradiction|].
    pose proof (split_from_not_nil sep l 0 "") as Nn.
    destruct (split_from sep 0 "" l) as [|first levels]; [contradiction|eauto]. }
  unfold OsFs_read.
  destruct (startswith "file://" locationString).
  - destruct (Sp (str_drop 7 locationString) "/") as (first & levels & E); [discriminate|].
    unfold lift_result. rewrite E.
    erewrite bind_Ok; [|reflexivity]. cbv beta iota.
    destruct (_ || _); [exact Same|].
    rewrite (bind_Ok get_state _ s s s eq_refl).
    destruct (os_path_isfile _ _); [exact Same|].
    destruct (os_path_isdir _ _); [exact Same|]. apply read_levels_None.
  - destruct (Sp locationString (os_sep pf) Sep) as (first & levels & E).
    unfold lift_result. rewrite E.
    erewrite bind_Ok; [|reflexivity]. cbv beta iota.
    destruct (_ || _); [exact Same|].
    rewrite (bind_Ok get_state _ s s s eq_refl).
    destruct (os_path_isfile _ _); [exact Same|].
    destruct (os_path_isdir _ _); [exact Same|]. apply read_levels_None.
Qed.

Lemma read_levels_stuck (loc cur : string) (levels : list string) :
  forall s : State,
    os_path_isdir (disk s) cur = false -> os_path_isfile (disk s) cur = false ->
    glob_glob (disk s) cur = [] ->
    read_levels pf glob_glob loc levels cur s
      = (Ok None,
         mkState (heap s) (next_ref s) (files s) (next_file s) (close_fault s)
           (remove_fault s) (disk s) (now s)
           (stdout s ++ replicate (length levels) (not_found loc cur)) (stderr s)).
Proof.
  induction levels as [|level rest IH]; intros s D F G.
  - cbn. rewrite app_nil_r. now destruct s.
  - cbn [read_levels]. rewrite (bind_Ok get_state _ s s s eq_refl), D, F, G.
    cbn [bool_decide decide_rel negb].
    erewrite bind_Ok; [|reflexivity].
    rewrite IH by assumption. cbn. now rewrite <- app_assoc.
Qed.

(** X25.  A location given with the separator of the host, that is
    neither a file nor a directory, and whose first level is nothing and
    matches nothing: [read] never gets past that level, and prints the
    same not-found line once for each level after the first; none at all
    for a location of one level. *)
Theorem read_reports_each_level (self : ref) (locationString first : string)
    (levels : list string) (justOne recursive printErrors : bool) (s : State) :
  startswith "file://" locationString = false ->
  str_split locationString (os_sep pf) = Ok (first :: levels) ->
  locationString <> "_" -> locationString <> "stdin" ->
  os_path_isfile (disk s) locationString = false ->
  os_path_isdir (disk s) locationString = false ->
  os_path_isdir (disk s) first = false -> os_path_isfile (disk s) first = false ->
  glob_glob (disk s) first = [] ->
  OsFs_read pf glob_glob self locationString justOne recursive printErrors s
    = (Ok None,
       mkState (heap s) (next_ref s) (files s) (next_file s) (close_fault s)
         (remove_fault s) (disk s) (now s)
         (stdout s ++ replicate (length levels) (not_found locationString first))
         (stderr s)).
Proof.
  intros Pre Sp N1 N2 F D D1 F1 G. unfold OsFs_read. rewrite Pre.
  unfold lift_result. rewrite Sp. erewrite bind_Ok; [|reflexivity]. cbv beta iota.
  destruct (String.eqb_spec locationString "_"); [contradiction|].
  destruct (String.eqb_spec locationString "stdin"); [contradiction|].
  cbn [orb]. rewrite (bind_Ok get_state _ s s s eq_refl), F, D.
  now apply read_levels_stuck.
Qed.

End ReadFurther.

(** ** The further properties on the scenarios *)

Section FurtherEvaluated.
Import Reference.

(** Listing through the driver of [/gone]. *)
Lemma failed_listing_is_swallowed_witness :
  exists g s1 s2,
    children 0%nat Cases.lost = (Ok g, s1) /\ disk s1 = disk Cases.lost /\
    py_list g s1 = (Raise (OSError "No such file or directory"), s2) /\
    children 0%nat s2 = (Ok g, s2) /\
    py_list g s2 = (Ok [], s2).
Proof.
  by_instance (failed_listing_is_swallowed 0%nat
           (mkOsDirectory (Some (to_url "/gone")) 0%nat None) (to_url "/gone")
           (OSError "No such file or directory") Cases.lost _ _ _ _ _).
  - vm_compute. reflexivity.
  - reflexivity.
  - vm_compute. lia.
  - reflexivity.
  - vm_compute. reflexivity.
Defined.

(** The first listing of [/base]. *)
Lemma listing_yields_typed_children_witness :
  exists g s1 s2,
    children 0%nat Scenario.with_driver = (Ok g, s1) /\
    py_list g s1 = (Ok [2%nat; 3%nat], s2) /\
    disk s2 = disk Scenario.with_driver /\
    (forall (i : nat) c, ["a.txt"; "b.txt"] !! i = Some c ->
       heap s2 !! (2 + i)%nat
         = Some (resolved 0%nat (disk Scenario.with_driver) (child (to_url "/base") c))).
Proof.
  destruct (listing_yields_typed_children 0%nat (Cases.base_dir None) (to_url "/base")
              ["a.txt"; "b.txt"] Scenario.with_driver)
    as (g & s1 & s2 & Ch & Ls & Dk & Hi).
  - vm_compute. reflexivity.
  - reflexivity.
  - vm_compute. lia.
  - reflexivity.
  - vm_compute. reflexivity.
  - repeat constructor.
  - exists g, s1, s2. split; [exact Ch|]. split; [exact Ls|]. split; [exact Dk|].
    exact Hi.
Defined.

(** [markDirty] and [children] on the driver of [/base] whose children
    were listed before. *)
Lemma markDirty_forces_new_listing_witness :
  exists s',
    (markDirty 0%nat;; children 0%nat) Cases.listed = (Ok 4%nat, s') /\
    heap s' !! 4%nat = Some (OGen (GenCreated 0%nat 0%nat)) /\
    get_dir 0%nat s' = (Ok (Cases.base_dir (Some 4%nat)), s') /\
    disk s' = disk Cases.listed.
Proof.
  by_instance (markDirty_forces_new_listing 0%nat (Cases.base_dir (Some 1%nat))
                 Cases.listed _ _).
  - vm_compute. reflexivity.
  - vm_compute. lia.
Defined.

(** Deleting the entity of [/base/a.txt], with the parent resolved through
    the driver, after the driver's children were listed: the entity that
    [parent] creates, at reference 4, is the one marked dirty, and the
    driver keeps the listing it had cached. *)
Lemma delete_file_removes_entry_witness :
  exists s',
    _delete Cases.parent_in_base 0%nat 2%nat Cases.listed = (Ok tt, s') /\
    os_path_exists (disk s') "/base/a.txt" = false /\
    (forall k, k <> "/base/a.txt" -> disk s' !! k = disk Cases.listed !! k) /\
    get_dir 4%nat s' = (Ok (Cases.base_dir None), s') /\
    heap s' !! 0%nat = Some (OFs (Cases.base_dir (Some 1%nat)) true).
Proof.
  destruct (delete_file_removes_entry Cases.parent_in_base 0%nat 2%nat 4%nat
              (to_url "/base/a.txt") (NFile [Byte.x6f; Byte.x6c; Byte.x64] 1)
              (Cases.base_dir None) Cases.listed
              (snd (Cases.parent_in_base 2%nat
                      (with_disk Cases.listed (delete "/base/a.txt" (disk Cases.listed))))))
    as (s' & D & E & K & G & Hr).
  - vm_compute. reflexivity.
  - vm_compute. reflexivity.
  - vm_compute. reflexivity.
  - discriminate.
  - vm_compute. reflexivity.
  - vm_compute. reflexivity.
  - vm_compute. reflexivity.
  - vm_compute. reflexivity.
  - exists s'. split; [exact D|]. split; [exact E|]. split; [exact K|].
    split; [exact G|].
    etransitivity; [apply Hr; discriminate|]. vm_compute. reflexivity.
Defined.

(** Deleting the entity of the directory [/base/sub], with the parent
    resolved through the driver, after the driver's children were listed:
    the entity that [parent] creates, at reference 6, is the one marked
    dirty, and the driver keeps the listing it had cached. *)
Lemma delete_directory_removes_tree_witness :
  exists s',
    _delete Cases.parent_in_base 0%nat 1%nat Cases.listed_tree = (Ok tt, s') /\
    (forall k, under "/base/sub" k = true -> disk s' !! k = None) /\
    (forall k, under "/base/sub" k = false -> disk s' !! k = disk Cases.listed_tree !! k) /\
    get_dir 6%nat s' = (Ok (Cases.base_dir None), s') /\
    heap s' !! 0%nat = Some (OFs (Cases.base_dir (Some 2%nat)) true).
Proof.
  destruct (delete_directory_removes_tree Cases.parent_in_base 0%nat 1%nat 6%nat
              (to_url "/base/sub") 1 (Cases.base_dir None) Cases.listed_tree
              (snd (Cases.parent_in_base 1%nat
                      (with_disk Cases.listed_tree
                         (snd (shutil_rmtree (disk Cases.listed_tree)
                                 (remove_fault Cases.listed_tree) "/base/sub"))))))
    as (s' & D & E & K & G & Hr).
  - vm_compute. reflexivity.
  - vm_compute. reflexivity.
  - vm_compute. reflexivity.
  - intros k _. vm_compute. reflexivity.
  - vm_compute. reflexivity.
  - vm_compute. reflexivity.
  - vm_compute. reflexivity.
  - exists s'. split; [exact D|]. split; [exact E|]. split; [exact K|].
    split; [exact G|].
    etransitivity; [apply Hr; discriminate|]. vm_compute. reflexivity.
Defined.

(** A batch of three records, one of unknown code. *)
Lemma nt_round_delivers_in_order_witness :
  exists s',
    nt_round Scenario.quiet "/base" Cases.mixed_batch (start Scenario.base_store)
      = (Ok tt, s') /\
    w_calls s' = [("/base/c.txt", "CREATE"); ("/base/d.txt", "CREATE")] /\
    w_out s' = ["KeyError"].
Proof.
  by_instance (nt_round_delivers_in_order Scenario.quiet "/base" Cases.mixed_batch
           [(1, "c.txt"); (9, "x"); (4, "d.txt")] (start Scenario.base_store) _ _).
  - reflexivity.
  - reflexivity.
Defined.

(** The [nt] watch of [/base] with the callback that fails on its first
    call. *)
Lemma nt_watch_survives_callback_witness :
  fst (addWatch Scenario.windows_host Scenario.fails_once "/base" true 1
         Scenario.event_ticks (start Scenario.base_store)) = Blocked.
Proof.
  apply nt_watch_survives_callback.
  - reflexivity.
  - reflexivity.
  - vm_compute. reflexivity.
  - intros [|n] p o e; [intros [= <-]; reflexivity | discriminate].
  - repeat constructor; eexists; reflexivity.
Defined.







(** [read] of a location of three levels none of which exists. *)
Lemma read_returns_None_witness :
  exists out,
    OsFs_read posix (fun _ _ => []) 0%nat "file:///nope/x" true false false
      Scenario.with_driver
      = (Ok None,
         mkState (heap Scenario.with_driver) (next_ref Scenario.with_driver)
           (files Scenario.with_driver) (next_file Scenario.with_driver)
           (close_fault Scenario.with_driver) (remove_fault Scenario.with_driver)
           (disk Scenario.with_driver) (now Scenario.with_driver)
           (stdout Scenario.with_driver ++ out) (stderr Scenario.with_driver)).
Proof.
  by_instance (read_returns_None posix (fun _ _ => []) 0%nat "file:///nope/x" true false false
           Scenario.with_driver _).
  discriminate.
Defined.

Lemma read_reports_each_level_witness :
  stdout (snd (OsFs_read posix (fun _ _ => []) 0%nat "nope/x/y" true false false
                 Scenario.with_driver))
    = [not_found "nope/x/y" "nope"; not_found "nope/x/y" "nope"].
Proof.
  rewrite (read_reports_each_level posix (fun _ _ => []) 0%nat "nope/x/y" "nope" ["x"; "y"]
             true false false Scenario.with_driver).
  - reflexivity.
  - reflexivity.
  - vm_compute. reflexivity.
  - discriminate.
  - discriminate.
  - vm_compute. reflexivity.
  - vm_compute. reflexivity.
  - vm_compute. reflexivity.
  - vm_compute. reflexivity.
  - reflexivity.
Defined.

End FurtherEvaluated.
